(** * cors_server.py: a static file server that adds CORS headers

    Shallow embedding of [public/docs/cors_server.py].  The program is a
    subclass [CORSHTTPRequestHandler] of the Python library class
    [http.server.SimpleHTTPRequestHandler] with three overridden methods
    ([end_headers], [do_OPTIONS], [log_message]) and a start-up script
    that parses the port and opens a [socketserver.TCPServer].

    The three methods and the start-up script are translated from the
    program text.  The library methods they call or that call them
    ([send_response], [send_header], the inherited [end_headers],
    [log_request], [send_error], the [TCPServer] constructor, [int]) are
    modelled after CPython's [http/server.py], [socketserver.py] and the
    language reference; each such definition says so.  Requests are
    taken as the library's [parse_request] leaves them on the handler
    (command, path, request line, request version), text is a sequence of
    code points below 256. *)

From Stdlib Require Import String Ascii List ZArith Bool Lia DecimalString.
#[local] Set Warnings "-register-all".
Import ListNotations.
Local Open Scope string_scope.
Local Open Scope Z_scope.

(** ** Python text *)

Module PyText.

Definition code (c : ascii) : Z := Z.of_N (N_of_ascii c).

Definition chr (n : Z) : ascii := ascii_of_N (Z.to_N n).

Definition dquote : ascii := chr 34.
Definition squote : ascii := chr 39.
Definition backslash : ascii := chr 92.

Definition CRLF : string := String (chr 13) (String (chr 10) EmptyString).

(** [prefix p s]: [s.startswith(p)]. *)
Fixpoint prefix (p s : string) : bool :=
  match p, s with
  | EmptyString, _ => true
  | String a p', String b s' => Ascii.eqb a b && prefix p' s'
  | String _ _, EmptyString => false
  end.

(** [contains needle hay]: the Python test [needle in hay] on two
    strings. *)
Fixpoint contains (needle hay : string) : bool :=
  prefix needle hay ||
  match hay with
  | EmptyString => false
  | String _ hay' => contains needle hay'
  end.

(** [str(n)] for an integer. *)
Definition str_of_int (n : Z) : string :=
  NilZero.string_of_int (Z.to_int n).

Definition hex_digit (n : Z) : ascii :=
  if n <? 10 then chr (48 + n) else chr (87 + n).

Definition hex_escape (c : ascii) : string :=
  String backslash
    (String "x" (String (hex_digit (code c / 16))
                        (String (hex_digit (code c mod 16)) EmptyString))).

(** One character of [repr(s)] for a string quoted with [quote]:
    the quote and the backslash are escaped, tab, newline and carriage
    return have their letter escapes, and every other character that
    [str.isprintable] rejects (C0 and C1 controls, DEL, no-break space,
    soft hyphen) is written as a two-digit hex escape. *)
Definition repr_char (quote c : ascii) : string :=
  let n := code c in
  if Ascii.eqb c quote || Ascii.eqb c backslash then
    String backslash (String c EmptyString)
  else if n =? 9 then String backslash "t"
  else if n =? 10 then String backslash "n"
  else if n =? 13 then String backslash "r"
  else if (n <? 32) || (n =? 127) then hex_escape c
  else if n <? 127 then String c EmptyString
  else if (n <=? 160) || (n =? 173) then hex_escape c
  else String c EmptyString.

Fixpoint repr_chars (quote : ascii) (s : string) : string :=
  match s with
  | EmptyString => EmptyString
  | String c s' => repr_char quote c ++ repr_chars quote s'
  end.

Fixpoint has_char (c : ascii) (s : string) : bool :=
  match s with
  | EmptyString => false
  | String d s' => Ascii.eqb c d || has_char c s'
  end.

(** [repr(s)] for a string: single quotes, unless the text has a single
    quote and no double quote. *)
Definition repr_str (s : string) : string :=
  let quote :=
    if has_char squote s && negb (has_char dquote s) then dquote else squote in
  String quote (repr_chars quote s ++ String quote EmptyString).

(** [sep.join(parts)]. *)
Fixpoint join (sep : string) (parts : list string) : string :=
  match parts with
  | [] => EmptyString
  | [p] => p
  | p :: ps => p ++ sep ++ join sep ps
  end.

End PyText.

(** ** Python values and exceptions *)

(** The objects a caller can hand to [log_message] as [*args]: the
    library passes strings and integers; [None] and lists stand for the
    other objects, those without and those with a membership test. *)
Inductive pyval : Type :=
| PyNone
| PyInt (n : Z)
| PyStr (s : string)
| PyList (items : list pyval).

Inductive exn : Type :=
| IndexError
| TypeError
| ValueError
| OSError
| OverflowError.

Inductive result (A : Type) : Type :=
| Ok (a : A)
| Raise (e : exn).

Arguments Ok {A} a.
Arguments Raise {A} e.

Module PyObj.
Import PyText.

(** [repr(v)]. *)
Fixpoint repr (v : pyval) : string :=
  match v with
  | PyNone => "None"
  | PyInt n => str_of_int n
  | PyStr s => repr_str s
  | PyList items =>
      "[" ++ join ", " ((fix reprs (l : list pyval) : list string :=
                           match l with
                           | [] => []
                           | x :: l' => repr x :: reprs l'
                           end) items) ++ "]"
  end.

(** [str(t)] for a tuple [t]: a one-element tuple keeps its comma. *)
Definition str_tuple (t : list pyval) : string :=
  match t with
  | [x] => "(" ++ repr x ++ ",)"
  | _ => "(" ++ join ", " (map repr t) ++ ")"
  end.

(** [s == v] for a string [s]. *)
Definition str_eq (s : string) (v : pyval) : bool :=
  match v with
  | PyStr s' => String.eqb s s'
  | _ => false
  end.

(** [needle in v] for a string [needle]: substring test on a string,
    element test on a list, [TypeError] on an object that is not
    iterable. *)
Definition str_in (needle : string) (v : pyval) : result bool :=
  match v with
  | PyStr s => Ok (contains needle s)
  | PyList items => Ok (existsb (str_eq needle) items)
  | PyNone | PyInt _ => Raise TypeError
  end.

(** [t[0]] for a tuple. *)
Definition item0 (t : list pyval) : result pyval :=
  match t with
  | [] => Raise IndexError
  | x :: _ => Ok x
  end.

(** [t[1:]] for a tuple: never raises. *)
Definition slice_from1 (t : list pyval) : list pyval := tl t.

End PyObj.

(** ** [format % args] *)

(** Whether the printf-style formatting [format % args] of a string with
    a tuple of arguments returns or raises, and what it raises, after
    the formatter of CPython ([PyUnicode_Format]).  The text it builds is
    not computed; running out of memory on a huge width or precision is
    not considered. *)
Module PyFormat.
Import PyText.

Definition ssize_t_max : Z := 2 ^ 63 - 1.
Definition ssize_t_min : Z := - 2 ^ 63.
Definition int_max : Z := 2 ^ 31 - 1.
Definition int_min : Z := - 2 ^ 31.

(** From this magnitude on an integer rounds to no float. *)
Definition float_limit : Z := 2 ^ 1024 - 2 ^ 970.

Definition one_of (chars : string) (c : ascii) : bool := has_char c chars.

Definition is_digit (c : ascii) : bool := (48 <=? code c) && (code c <=? 57).

Fixpoint skip_flags (s : string) : string :=
  match s with
  | EmptyString => EmptyString
  | String c s' => if one_of "-+ #0" c then skip_flags s' else s
  end.

Fixpoint read_number (acc : Z) (s : string) : Z * string :=
  match s with
  | EmptyString => (acc, EmptyString)
  | String c s' =>
      if is_digit c then read_number (10 * acc + (code c - 48)) s' else (acc, s)
  end.

(** The argument a [*] takes for the width or the precision. *)
Definition star (lo hi : Z) (args : list pyval) : result (Z * list pyval) :=
  match args with
  | [] => Raise TypeError
  | PyInt n :: rest =>
      if (n <? lo) || (hi <? n) then Raise OverflowError else Ok (n, rest)
  | _ :: _ => Raise TypeError
  end.

Definition parse_width (s : string) (args : list pyval)
  : result (string * list pyval) :=
  match s with
  | EmptyString => Ok (s, args)
  | String c s' =>
      if Ascii.eqb c "*" then
        match star ssize_t_min ssize_t_max args with
        | Ok (_, rest) => Ok (s', rest)
        | Raise e => Raise e
        end
      else if is_digit c then
        let (w, s'') := read_number 0 s in
        if ssize_t_max <? w then Raise ValueError else Ok (s'', args)
      else Ok (s, args)
  end.

Definition parse_precision (s : string) (args : list pyval)
  : result (option Z * string * list pyval) :=
  match s with
  | EmptyString => Ok (None, s, args)
  | String c s' =>
      if Ascii.eqb c "." then
        match s' with
        | EmptyString => Ok (Some 0, s', args)
        | String d s'' =>
            if Ascii.eqb d "*" then
              match star int_min int_max args with
              | Ok (p, rest) => Ok (Some (Z.max p 0), s'', rest)
              | Raise e => Raise e
              end
            else if is_digit d then
              let (p, s3) := read_number 0 s' in
              if int_max <? p then Raise ValueError else Ok (Some p, s3, args)
            else Ok (Some 0, s', args)
        end
      else Ok (None, s, args)
  end.

Definition skip_length (s : string) : string :=
  match s with
  | EmptyString => EmptyString
  | String c s' => if one_of "hlL" c then s' else s
  end.

(** The conversion of one argument by the type character. *)
Definition convert (prec : option Z) (type : ascii) (v : pyval) : result unit :=
  if one_of "sra" type then Ok tt
  else if one_of "diuoxX" type then
    match v with
    | PyInt _ =>
        match prec with
        | Some p => if int_max - 3 <? p then Raise OverflowError else Ok tt
        | None => Ok tt
        end
    | _ => Raise TypeError
    end
  else if one_of "eEfFgG" type then
    match v with
    | PyInt n => if float_limit <=? Z.abs n then Raise OverflowError else Ok tt
    | _ => Raise TypeError
    end
  else if Ascii.eqb type "c" then
    match v with
    | PyInt n => if (n <? 0) || (1114111 <? n) then Raise OverflowError else Ok tt
    | PyStr s => if (String.length s =? 1)%nat then Ok tt else Raise TypeError
    | _ => Raise TypeError
    end
  else Raise ValueError.

(** One conversion specification, the text after its [%]: what is left
    of the format and of the arguments after it. *)
Definition conversion (s : string) (args : list pyval)
  : result (string * list pyval) :=
  if prefix "(" s then Raise TypeError
  else
    match parse_width (skip_flags s) args with
    | Raise e => Raise e
    | Ok (s1, args1) =>
        match parse_precision s1 args1 with
        | Raise e => Raise e
        | Ok (prec, s2, args2) =>
            match skip_length s2 with
            | EmptyString => Raise ValueError
            | String type s3 =>
                match args2 with
                | [] => Raise TypeError
                | v :: args3 =>
                    match convert prec type v with
                    | Ok _ => Ok (s3, args3)
                    | Raise e => Raise e
                    end
                end
            end
        end
    end.

Definition skip_char (s : string) : string :=
  match s with
  | EmptyString => EmptyString
  | String _ s' => s'
  end.

(** The loop over the format; [fuel] bounds the number of steps, each of
    which takes at least one character. *)
Fixpoint scan (fuel : nat) (s : string) (args : list pyval) : result unit :=
  match fuel with
  | O => Raise ValueError
  | S fuel' =>
      match s with
      | EmptyString =>
          match args with
          | [] => Ok tt
          | _ :: _ => Raise TypeError
          end
      | String c s' =>
          if Ascii.eqb c "%" then
            if prefix "%" s' then scan fuel' (skip_char s') args
            else
              match conversion s' args with
              | Ok (s'', args') => scan fuel' s'' args'
              | Raise e => Raise e
              end
          else scan fuel' s' args
      end
  end.

(** [format % args]: [Ok] when it yields a string. *)
Definition check (format : string) (args : list pyval) : result unit :=
  scan (S (String.length format)) format args.

End PyFormat.

(** ** The request handler object *)

(** A line of the header section, kept structured; [encode_line] gives
    the bytes the library puts in [_headers_buffer]. *)
Inductive line : Type :=
| StatusLine (version : string) (code : Z) (message : string)
| HeaderLine (keyword value : string)
| BlankLine.

(** One [wfile.write]: the flushed header section, or body bytes. *)
Inductive write : Type :=
| HeaderBlock (lines : list line)
| Payload (data : string).

(** What the library's request parsing leaves on the handler. *)
Record request : Type := mkRequest {
  req_command : string;
  req_path : string;
  req_line : string;
  req_close : bool;
  req_version : string
}.

(** Class attributes and environment of the library handler.
    [error_body code message explain] is the page of an error reply as
    [send_error] writes it: [error_message_format] filled in and
    encoded, a sequence of bytes. *)
Record server_env : Type := mkEnv {
  protocol_version : string;
  version_string : string;
  date_time_string : string;
  responses : Z -> option (string * string);
  error_content_type : string;
  error_body : Z -> string -> string -> string
}.

Record handler : Type := mkHandler {
  env : server_env;
  request_of : request;
  headers_buffer : list line;
  wfile : list write;
  close_connection : bool;
  log : list (string * list pyval)
}.

Definition set_buffer (h : handler) (b : list line) : handler :=
  mkHandler (env h) (request_of h) b (wfile h) (close_connection h) (log h).

Definition set_wfile (h : handler) (w : list write) : handler :=
  mkHandler (env h) (request_of h) (headers_buffer h) w (close_connection h) (log h).

Definition set_close (h : handler) (c : bool) : handler :=
  mkHandler (env h) (request_of h) (headers_buffer h) (wfile h) c (log h).

Definition set_log (h : handler) (l : list (string * list pyval)) : handler :=
  mkHandler (env h) (request_of h) (headers_buffer h) (wfile h) (close_connection h) l.

(** The handler as the server creates it for a parsed request. *)
Definition setup (e : server_env) (r : request) : handler :=
  mkHandler e r [] [] (req_close r) [].

Definition encode_line (l : line) : string :=
  match l with
  | StatusLine v c m =>
      v ++ " " ++ PyText.str_of_int c ++ " " ++ m ++ PyText.CRLF
  | HeaderLine k v => k ++ ": " ++ v ++ PyText.CRLF
  | BlankLine => PyText.CRLF
  end.

Definition encode_write (w : write) : string :=
  match w with
  | HeaderBlock ls => PyText.join EmptyString (map encode_line ls)
  | Payload d => d
  end.

(** The bytes on the wire. *)
Definition wire (h : handler) : string :=
  PyText.join EmptyString (map encode_write (wfile h)).

(** ** Methods as state transformers that may raise *)

Definition M (A : Type) : Type := handler -> result A * handler.

Definition ret {A : Type} (a : A) : M A := fun h => (Ok a, h).

Definition bind {A B : Type} (m : M A) (k : A -> M B) : M B :=
  fun h =>
    match m h with
    | (Ok a, h') => k a h'
    | (Raise e, h') => (Raise e, h')
    end.

Definition lift {A : Type} (r : result A) : M A := fun h => (r, h).

Definition modify (f : handler -> handler) : M unit := fun h => (Ok tt, f h).

Declare Scope py_scope.
Delimit Scope py_scope with py.
Notation "x <- m ;; k" := (bind m (fun x => k))
  (at level 61, m at next level, right associativity) : py_scope.
Notation "m ;; k" := (bind m (fun _ => k))
  (at level 61, right associativity) : py_scope.
Local Open Scope py_scope.

(** Methods a subclass may override; the library calls them through
    [self]. *)
Class Methods : Type := {
  self_end_headers : M unit;
  self_log_message : string -> list pyval -> M unit
}.

(** ** [http.server.BaseHTTPRequestHandler] *)

(** The library methods of the handler, after CPython's [http/server.py]. *)
Module Base.
Import PyText.

Definition ascii_lower (c : ascii) : ascii :=
  if (65 <=? code c) && (code c <=? 90) then chr (code c + 32) else c.

(** [s.lower()], as far as a comparison with an ASCII word needs it. *)
Fixpoint lower (s : string) : string :=
  match s with
  | EmptyString => EmptyString
  | String c s' => String (ascii_lower c) (lower s')
  end.

Definition phrase (h : handler) (code : Z) (message : option string) : string :=
  match message with
  | Some m => m
  | None =>
      match responses (env h) code with
      | Some (short, _) => short
      | None => EmptyString
      end
  end.

(** [self.request_version != 'HTTP/0.9']: the library writes a status
    line and headers for such a request only. *)
Definition has_headers (h : handler) : bool :=
  negb (String.eqb (req_version (request_of h)) "HTTP/0.9").

Definition send_response_only (code : Z) (message : option string) : M unit :=
  modify (fun h =>
    if has_headers h then
      set_buffer h (headers_buffer h ++
                    [StatusLine (protocol_version (env h)) code
                       (phrase h code message)])
    else h).

Definition send_header (keyword value : string) : M unit :=
  modify (fun h =>
    let h1 :=
      if has_headers h
      then set_buffer h (headers_buffer h ++ [HeaderLine keyword value])
      else h in
    if String.eqb (lower keyword) "connection" then
      if String.eqb (lower value) "close" then set_close h1 true
      else if String.eqb (lower value) "keep-alive" then set_close h1 false
      else h1
    else h1).

Definition flush_headers : M unit :=
  modify (fun h =>
    set_buffer (set_wfile h (wfile h ++ [HeaderBlock (headers_buffer h)])) []).

Definition end_headers : M unit :=
  fun h =>
    if has_headers h then
      (modify (fun h => set_buffer h (headers_buffer h ++ [BlankLine])) ;;
       flush_headers) h
    else (Ok tt, h).

(** [wfile.write(data)]. *)
Definition write_body (data : string) : M unit :=
  modify (fun h => set_wfile h (wfile h ++ [Payload data])).

(** The library's [log_message] renders [format % args], which raises
    when the format does not fit the arguments, and writes the line to
    stderr; the record of the call stands for that line. *)
Definition log_message (format : string) (args : list pyval) : M unit :=
  _ <- lift (PyFormat.check format args) ;;
  modify (fun h => set_log h (log h ++ [(format, args)])).

Definition log_request_format : string :=
  String dquote "%s" ++ String dquote " %s %s".

Section Virtual.
Context {self : Methods}.

Definition log_request (code : Z) (size : string) : M unit :=
  fun h =>
    self_log_message log_request_format
      [PyStr (req_line (request_of h)); PyStr (str_of_int code); PyStr size] h.

Definition log_error (format : string) (args : list pyval) : M unit :=
  self_log_message format args.

Definition send_response (code : Z) (message : option string) : M unit :=
  log_request code "-" ;;
  send_response_only code message ;;
  (fun h => send_header "Server" (version_string (env h)) h) ;;
  (fun h => send_header "Date" (date_time_string (env h)) h).

(** The body of an error page is omitted for 1xx, 204, 205 and 304. *)
Definition error_has_body (code : Z) : bool :=
  (200 <=? code) && negb ((code =? 204) || (code =? 205) || (code =? 304)).

Definition send_error (code : Z) (message : option string) : M unit :=
  fun h =>
    let (shortmsg, longmsg) :=
      match responses (env h) code with
      | Some p => p
      | None => ("???", "???")
      end in
    let message := match message with Some m => m | None => shortmsg end in
    let body :=
      if error_has_body code
      then Some (error_body (env h) code message longmsg)
      else None in
    (log_error "code %d, message %s" [PyInt code; PyStr message] ;;
     send_response code (Some message) ;;
     send_header "Connection" "close" ;;
     match body with
     | Some b =>
         send_header "Content-Type" (error_content_type (env h)) ;;
         send_header "Content-Length" (str_of_int (Z.of_nat (String.length b)))
     | None => ret tt
     end ;;
     self_end_headers ;;
     match body with
     | Some b =>
         if negb (String.eqb (req_command (request_of h)) "HEAD")
            && negb (String.eqb b EmptyString)
         then write_body b
         else ret tt
     | None => ret tt
     end) h.

End Virtual.
End Base.

(** ** [CORSHTTPRequestHandler] *)

(** The four header lines of [end_headers], in the order they are sent. *)
Definition cors_headers : list line :=
  [ HeaderLine "Access-Control-Allow-Origin" "*";
    HeaderLine "Access-Control-Allow-Methods" "GET, POST, OPTIONS";
    HeaderLine "Access-Control-Allow-Headers" "*";
    HeaderLine "Access-Control-Allow-Credentials" "true" ].

Definition end_headers : M unit :=
  Base.send_header "Access-Control-Allow-Origin" "*" ;;
  Base.send_header "Access-Control-Allow-Methods" "GET, POST, OPTIONS" ;;
  Base.send_header "Access-Control-Allow-Headers" "*" ;;
  Base.send_header "Access-Control-Allow-Credentials" "true" ;;
  Base.end_headers.

(** The condition of the [if] in [log_message], with Python's order of
    evaluation: [and] and [or] stop at the first operand that decides. *)
Definition log_filter (format : string) (args : list pyval) : result bool :=
  if PyText.contains "GET" format then
    match PyObj.item0 args with
    | Raise e => Raise e
    | Ok a0 =>
        match PyObj.str_in ".pdf" a0 with
        | Raise e => Raise e
        | Ok true => Ok true
        | Ok false =>
            Ok (PyText.contains "200" (PyObj.str_tuple (PyObj.slice_from1 args)))
        end
    end
  else Ok false.

Definition log_message (format : string) (args : list pyval) : M unit :=
  b <- lift (log_filter format args) ;;
  if b then Base.log_message format args else ret tt.

#[export] Instance CORSHTTPRequestHandler : Methods := {|
  self_end_headers := end_headers;
  self_log_message := log_message
|}.

Definition do_OPTIONS : M unit :=
  Base.send_response 200 None ;;
  self_end_headers.

(** ** The inherited static file handler and the dispatch *)

(** What library code does to the handler while it answers a request:
    calls on [self] and writes of body bytes. *)
Inductive call : Type :=
| SendResponse (code : Z) (message : option string)
| SendResponseOnly (code : Z) (message : option string)
| SendHeader (keyword value : string)
| EndHeaders
| SendError (code : Z) (message : option string)
| Write (data : string).

Definition run_call (c : call) : M unit :=
  match c with
  | SendResponse code message => Base.send_response code message
  | SendResponseOnly code message => Base.send_response_only code message
  | SendHeader k v => Base.send_header k v
  | EndHeaders => self_end_headers
  | SendError code message => Base.send_error code message
  | Write data => Base.write_body data
  end.

Fixpoint run (script : list call) : M unit :=
  match script with
  | [] => ret tt
  | c :: script' => run_call c ;; run script'
  end.

(** The served directory: translated path to file bytes. *)
Definition filesystem : Type := string -> option string.

(** [SimpleHTTPRequestHandler.do_GET] and [do_HEAD]: any behaviour that
    reads the file system and the path and then acts on the handler. *)
Record SimpleHTTPRequestHandler : Type := mkStatic {
  do_GET : filesystem -> string -> list call;
  do_HEAD : filesystem -> string -> list call
}.

(** The dispatch of [handle_one_request] on a parsed request: the method
    [do_<command>] of the class if there is one, else a 501 error.  A
    request line that [parse_request] rejects is answered there by
    [send_error] and never comes here; that reply is [Base.send_error] on
    the handler as it then is, with the request version still the
    default HTTP/0.9 (one word, a bad version, a version from 2.0 on) or
    already the one of the request line (more than three words, bad
    headers). *)
Definition handle_one_request (static : SimpleHTTPRequestHandler)
    (fs : filesystem) : M unit :=
  fun h =>
    let command := req_command (request_of h) in
    if String.eqb command "OPTIONS" then do_OPTIONS h
    else if String.eqb command "GET" then
      run (do_GET static fs (req_path (request_of h))) h
    else if String.eqb command "HEAD" then
      run (do_HEAD static fs (req_path (request_of h))) h
    else
      Base.send_error 501
        (Some ("Unsupported method (" ++ PyText.repr_str command ++ ")")) h.

Definition handle (e : server_env) (static : SimpleHTTPRequestHandler)
    (fs : filesystem) (r : request) : result unit * handler :=
  handle_one_request static fs (setup e r).

(** ** The answers of [SimpleHTTPRequestHandler.send_head] *)

(** The five ways in which [send_head] and [list_directory] of the
    library answer a GET or a HEAD, after CPython's [http/server.py]:
    the redirection of a directory named without its slash, the 404
    error reply, the 304 of a cached file, a file, a directory listing.
    Which one it is and the values in it come from path resolution, the
    file system, the type table and the cache headers of the request,
    which are not modelled: a reply is any value of this type. *)
Inductive static_reply : Type :=
| Redirect (location : string)
| NotFound (message : string)
| NotModified
| File (ctype : string) (size : Z) (mtime : string) (chunks : list string)
| Listing (ctype : string) (chunks : list string).

(** What [send_head] does to the handler. *)
Definition head_script (reply : static_reply) : list call :=
  match reply with
  | Redirect location =>
      [ SendResponse 301 None;
        SendHeader "Location" location;
        SendHeader "Content-Length" "0";
        EndHeaders ]
  | NotFound message => [SendError 404 (Some message)]
  | NotModified => [SendResponse 304 None; EndHeaders]
  | File ctype size mtime _ =>
      [ SendResponse 200 None;
        SendHeader "Content-type" ctype;
        SendHeader "Content-Length" (PyText.str_of_int size);
        SendHeader "Last-Modified" mtime;
        EndHeaders ]
  | Listing ctype chunks =>
      [ SendResponse 200 None;
        SendHeader "Content-type" ctype;
        SendHeader "Content-Length"
          (PyText.str_of_int
             (Z.of_nat (String.length (PyText.join EmptyString chunks))));
        EndHeaders ]
  end.

(** What [do_GET] copies to [wfile] after [send_head], chunk by chunk. *)
Definition body_chunks (reply : static_reply) : list string :=
  match reply with
  | File _ _ _ chunks => chunks
  | Listing _ chunks => chunks
  | _ => []
  end.

(** The inherited [do_GET] and [do_HEAD] when [send_head] answers with
    [reply]. *)
Definition answers (reply : static_reply) : SimpleHTTPRequestHandler :=
  mkStatic
    (fun _ _ => (head_script reply ++ map Write (body_chunks reply))%list)
    (fun _ _ => head_script reply).

(** The status of an answer of [send_head]. *)
Definition reply_code (reply : static_reply) : Z :=
  match reply with
  | Redirect _ => 301
  | NotFound _ => 404
  | NotModified => 304
  | File _ _ _ _ => 200
  | Listing _ _ => 200
  end.

(** The status with which a request is answered: 200 by [do_OPTIONS],
    the status of [send_head] for GET and HEAD, 501 for a method the
    class does not have. *)
Definition response_code (r : request) (reply : static_reply) : Z :=
  if String.eqb (req_command r) "OPTIONS" then 200
  else if String.eqb (req_command r) "GET" then reply_code reply
  else if String.eqb (req_command r) "HEAD" then reply_code reply
  else 501.

(** The names of the headers the library sends in these answers, in its
    error replies and in [send_response]. *)
Definition library_header_names : list string :=
  [ "Server"; "Date"; "Connection"; "Content-Type"; "Content-Length";
    "Location"; "Content-type"; "Last-Modified" ].

Definition library_line (l : line) : Prop :=
  exists k v, l = HeaderLine k v /\ In k library_header_names.

(** ** [int(s)] on a string *)

Module PyInt.
Import PyText.

(** White space for [int]: tab to carriage return and the space in
    ASCII, next line and no-break space above it. *)
Definition is_space (c : ascii) : bool :=
  let n := code c in
  ((9 <=? n) && (n <=? 13)) || (n =? 32) || (n =? 133) || (n =? 160).

Definition is_digit (c : ascii) : bool :=
  (48 <=? code c) && (code c <=? 57).

Definition digit_value (c : ascii) : Z := code c - 48.

Fixpoint lstrip (s : string) : string :=
  match s with
  | EmptyString => EmptyString
  | String c s' => if is_space c then lstrip s' else s
  end.

Fixpoint rev_onto (s acc : string) : string :=
  match s with
  | EmptyString => acc
  | String c s' => rev_onto s' (String c acc)
  end.

Definition rev (s : string) : string := rev_onto s EmptyString.

Definition strip (s : string) : string := rev (lstrip (rev (lstrip s))).

(** The cap on the number of digits, [sys.int_info.default_max_str_digits]. *)
Definition max_str_digits : Z := 4300.

(** The text after a digit: more digits, each preceded by at most one
    underscore.  [acc] is the value and [count] the number of digits
    read so far. *)
Fixpoint digits (acc count : Z) (s : string) : option (Z * Z) :=
  match s with
  | EmptyString => Some (acc, count)
  | String c s' =>
      if is_digit c then digits (10 * acc + digit_value c) (count + 1) s'
      else if Ascii.eqb c "_" then
        match s' with
        | String d s'' =>
            if is_digit d
            then digits (10 * acc + digit_value d) (count + 1) s''
            else None
        | EmptyString => None
        end
      else None
  end.

Definition unsigned (s : string) : result Z :=
  match s with
  | EmptyString => Raise ValueError
  | String c s' =>
      if is_digit c then
        match digits (digit_value c) 1 s' with
        | Some (n, count) =>
            if max_str_digits <? count then Raise ValueError else Ok n
        | None => Raise ValueError
        end
      else Raise ValueError
  end.

Definition negate (r : result Z) : result Z :=
  match r with
  | Ok n => Ok (- n)
  | Raise e => Raise e
  end.

(** [int(s)]: surrounding white space, an optional sign, decimal digits. *)
Definition int (s : string) : result Z :=
  match strip s with
  | String c s' =>
      if Ascii.eqb c "+" then unsigned s'
      else if Ascii.eqb c "-" then negate (unsigned s')
      else unsigned (String c s')
  | EmptyString => Raise ValueError
  end.

End PyInt.

(** ** [socketserver.TCPServer] and the start-up script *)

Inductive sockopt : Type := SO_REUSEADDR | SO_REUSEPORT.

(** What the process does to its environment, in order. *)
Inductive event : Type :=
| Chdir
| SocketOpen
| SetSockOpt (opt : sockopt)
| Bind (host : string) (port : Z)
| Listen (backlog : Z)
| SocketClose
| Print (text : string)
| ServeForever
| Shutdown.

(** How the process stands: ended by an uncaught exception, blocked in
    [serve_forever] after a bind that was given [port], or ended
    normally. *)
Inductive outcome : Type :=
| Crashed (e : exn)
| Serving (port : Z)
| Exited.

(** The exit status: an uncaught exception ends the interpreter with
    status 1; a serving process has none yet. *)
Definition exit_status (o : outcome) : option Z :=
  match o with
  | Crashed _ => Some 1
  | Serving _ => None
  | Exited => Some 0
  end.

(** [socket.bind((host, port))]: a port outside 0..65535 is an
    [OverflowError]; otherwise the operating system decides, and
    [can_bind] says whether it grants the port. *)
Definition socket_bind (can_bind : Z -> bool) (port : Z) : result unit :=
  if (port <? 0) || (65535 <? port) then Raise OverflowError
  else if can_bind port then Ok tt
  else Raise OSError.

(** After CPython's [socketserver.py]. *)
Module TCPServer.

(** Class attributes of [socketserver.TCPServer]. *)
Definition allow_reuse_address : bool := false.
Definition allow_reuse_port : bool := false.
Definition request_queue_size : Z := 5.

Definition server_bind (can_bind : Z -> bool) (host : string) (port : Z)
  : list event * result unit :=
  (((if allow_reuse_address then [SetSockOpt SO_REUSEADDR] else [])
    ++ (if allow_reuse_port then [SetSockOpt SO_REUSEPORT] else [])
    ++ [Bind host port])%list,
   socket_bind can_bind port).

(** The constructor: open the socket, bind, listen; close the socket and
    raise again if binding fails.  Opening the socket and [listen] are
    taken where they succeed. *)
Definition init (can_bind : Z -> bool) (host : string) (port : Z)
  : list event * result unit :=
  match server_bind can_bind host port with
  | (evs, Ok _) =>
      ((SocketOpen :: evs ++ [Listen request_queue_size])%list, Ok tt)
  | (evs, Raise e) => ((SocketOpen :: evs ++ [SocketClose])%list, Raise e)
  end.

End TCPServer.

(** [port = int(sys.argv[1]) if len(sys.argv) > 1 else 8080]. *)
Definition parse_port (argv : list string) : result Z :=
  if (1 <? length argv)%nat then PyInt.int (nth 1 argv EmptyString)
  else Ok 8080.

(** The script under [if __name__ == '__main__'], up to the call of
    [serve_forever].  Of the calls to the operating system, [bind] is the
    one that is followed in its failure; the change of directory, the
    creation of the socket and [listen] are taken where they succeed. *)
Definition main (argv : list string) (can_bind : Z -> bool)
  : list event * outcome :=
  match parse_port argv with
  | Raise e => ([], Crashed e)
  | Ok port =>
      match TCPServer.init can_bind EmptyString port with
      | (evs, Raise e) => (Chdir :: evs, Crashed e)
      | (evs, Ok _) =>
          (Chdir :: app evs
             [ Print ("Serving with CORS on port " ++ PyText.str_of_int port);
               Print ("Files available at: http://localhost:"
                      ++ PyText.str_of_int port ++ "/");
               Print "Press Ctrl+C to stop";
               ServeForever ],
           Serving port)
      end
  end.

(** [KeyboardInterrupt] while serving: the handler of the [try] prints
    and shuts down, the [with] block closes the socket. *)
Definition interrupt (r : list event * outcome) : list event * outcome :=
  match r with
  | (evs, Serving _) =>
      (app evs [ Print (String (PyText.chr 10) "Server stopped");
                 Shutdown; SocketClose ],
       Exited)
  | _ => r
  end.

Definition printed (evs : list event) : list string :=
  flat_map (fun e => match e with Print t => [t] | _ => [] end) evs.

Definition bound_ports (evs : list event) : list Z :=
  flat_map (fun e => match e with Bind _ p => [p] | _ => [] end) evs.

Definition is_socket_event (e : event) : bool :=
  match e with
  | SocketOpen | SetSockOpt _ | Bind _ _ | Listen _ | SocketClose => true
  | _ => false
  end.

(** ** Sample inputs *)

(** A library environment with the standard entries of the [responses]
    table that the samples use. *)
Definition sample_env : server_env :=
  mkEnv "HTTP/1.0" "SimpleHTTP/0.6 Python/3.11.2"
    "Wed, 04 Nov 2026 18:00:00 GMT"
    (fun code =>
       if code =? 200 then Some ("OK", "Request fulfilled, document follows")
       else if code =? 404 then Some ("Not Found", "Nothing matches the given URI")
       else if code =? 501
       then Some ("Not Implemented", "Server does not support this operation")
       else None)
    "text/html;charset=utf-8"
    (fun code message explain =>
       "<p>Error code: " ++ PyText.str_of_int code ++ "</p><p>Message: "
       ++ message ++ ".</p>").

(** A static handler in the manner of [send_head]: the file with status
    200 where the path resolves, the 404 error page where it does not. *)
Definition sample_static : SimpleHTTPRequestHandler :=
  mkStatic
    (fun fs path =>
       match fs path with
       | Some data =>
           [ SendResponse 200 None;
             SendHeader "Content-type" "application/pdf";
             SendHeader "Content-Length"
               (PyText.str_of_int (Z.of_nat (String.length data)));
             EndHeaders;
             Write data ]
       | None => [SendError 404 (Some "File not found")]
       end)
    (fun fs path =>
       match fs path with
       | Some data =>
           [ SendResponse 200 None;
             SendHeader "Content-type" "application/pdf";
             SendHeader "Content-Length"
               (PyText.str_of_int (Z.of_nat (String.length data)));
             EndHeaders ]
       | None => [SendError 404 (Some "File not found")]
       end).

Definition sample_fs : filesystem :=
  fun path => if String.eqb path "/sample.pdf" then Some "%PDF-1.4" else None.

Definition get_sample_pdf : request :=
  mkRequest "GET" "/sample.pdf" "GET /sample.pdf HTTP/1.1" true "HTTP/1.1".

Definition get_missing_txt : request :=
  mkRequest "GET" "/missing.txt" "GET /missing.txt HTTP/1.1" true "HTTP/1.1".


(** The same GET as a simple request of HTTP/0.9, the request line
    [GET /sample.pdf], and a preflight that names HTTP/0.9: what
    [parse_request] leaves on the handler for them. *)
Definition get_sample_pdf_simple : request :=
  mkRequest "GET" "/sample.pdf" "GET /sample.pdf" true "HTTP/0.9".


Definition post_any : request :=
  mkRequest "POST" "/sample.pdf" "POST /sample.pdf HTTP/1.1" true "HTTP/1.1".

(** The handler as [parse_request] has it when it rejects the request
    line [GET /sample.pdf HTTP/x] for its version: no command, no path,
    the default request version. *)
Definition bad_version : request :=
  mkRequest EmptyString EmptyString "GET /sample.pdf HTTP/x" true "HTTP/0.9".

(** The answer of [send_head] for the sample file. *)
Definition sample_pdf_reply : static_reply :=
  File "application/pdf" 8 "Wed, 04 Nov 2026 17:00:00 GMT" ["%PDF-1.4"].

(** ** Properties of responses *)

(** A written header section ends with the four CORS lines and the blank
    line; body bytes are not concerned. *)
Definition sends_cors (w : write) : Prop :=
  match w with
  | HeaderBlock ls => exists pre, ls = (pre ++ cors_headers ++ [BlankLine])%list
  | Payload _ => True
  end.

(** The values a header section gives for a header name (names compare
    without regard to case). *)
Definition header_values (keyword : string) (ls : list line) : list string :=
  flat_map
    (fun l =>
       match l with
       | HeaderLine k v =>
           if String.eqb (Base.lower k) (Base.lower keyword) then [v] else []
       | _ => []
       end) ls.

(** The values of a header name in everything the handler has written. *)
Definition written_values (keyword : string) (h : handler) : list string :=
  flat_map
    (fun w =>
       match w with
       | HeaderBlock ls => header_values keyword ls
       | Payload _ => []
       end) (wfile h).

(** A response with a header section: the status line with [code]
    comes first, the four CORS lines and the blank line end the section,
    the lines between them are headers of the library, and after the
    section come body bytes only. *)
Definition cors_response (code : Z) (ws : list write) : Prop :=
  exists version message lines chunks,
    ws = HeaderBlock (StatusLine version code message
                        :: lines ++ cors_headers ++ [BlankLine])
         :: map Payload chunks
    /\ Forall library_line lines.

(** A method that returns normally, leaves the log as it is and writes
    only body bytes and header sections that carry the CORS lines. *)
Definition Sound {A : Type} (m : M A) : Prop :=
  forall h, exists a h',
    m h = (Ok a, h') /\
    log h' = log h /\
    exists new, wfile h' = (wfile h ++ new)%list /\ Forall sends_cors new.

(** Objects on which [".pdf" in x] raises. *)
Definition not_iterable (v : pyval) : bool :=
  match v with
  | PyNone | PyInt _ => true
  | PyStr _ | PyList _ => false
  end.



Definition sockopts_set (evs : list event) : list sockopt :=
  flat_map (fun e => match e with SetSockOpt o => [o] | _ => [] end) evs.

(** ** The inherited handler without the subclass *)







(** The reason phrase and the page of the library's error reply, as
    [send_error] computes them from the [responses] table. *)
Definition error_message (e : server_env) (code : Z) (message : option string)
  : string :=
  match message with
  | Some m => m
  | None =>
      match responses e code with
      | Some (short, _) => short
      | None => "???"
      end
  end.

Definition error_page (e : server_env) (code : Z) (message : option string)
  : string :=
  error_body e code (error_message e code message)
    (match responses e code with
     | Some (_, long) => long
     | None => "???"
     end).

(** The header lines of the library's error reply, the status line
    first; Content-Type and Content-Length go with a page only. *)
Definition error_lines (e : server_env) (code : Z) (message : option string)
  : list line :=
  [ StatusLine (protocol_version e) code (error_message e code message);
    HeaderLine "Server" (version_string e);
    HeaderLine "Date" (date_time_string e);
    HeaderLine "Connection" "close" ]
  ++ (if Base.error_has_body code
      then [ HeaderLine "Content-Type" (error_content_type e);
             HeaderLine "Content-Length"
               (PyText.str_of_int
                  (Z.of_nat (String.length (error_page e code message)))) ]
      else []).

(** The page of the error reply as it is written: not for a HEAD
    request, not when it is empty, not for a code without page. *)
Definition error_payload (h : handler) (code : Z) (message : option string)
  : list write :=
  if Base.error_has_body code
     && negb (String.eqb (req_command (request_of h)) "HEAD")
     && negb (String.eqb (error_page (env h) code message) EmptyString)
  then [Payload (error_page (env h) code message)]
  else [].

(** Lines put in the header buffer, where the request has headers. *)
Definition buffered (h : handler) (ls : list line) : handler :=
  if Base.has_headers h then set_buffer h (headers_buffer h ++ ls) else h.

(** The header buffer flushed with the CORS lines and the blank line,
    where the request has headers. *)
Definition flushed (h : handler) : handler :=
  if Base.has_headers h then
    mkHandler (env h) (request_of h) []
      (wfile h ++ [HeaderBlock (headers_buffer h ++ cors_headers ++ [BlankLine])])
      (close_connection h) (log h)
  else h.

(** ** Counting on the events of the process *)

Definition opened (evs : list event) : nat :=
  length (filter (fun e => match e with SocketOpen => true | _ => false end) evs).

Definition closed (evs : list event) : nat :=
  length (filter (fun e => match e with SocketClose => true | _ => false end) evs).

(** The three lines the script prints once the server listens. *)
Definition serving_lines (port : Z) : list string :=
  [ "Serving with CORS on port " ++ PyText.str_of_int port;
    "Files available at: http://localhost:" ++ PyText.str_of_int port ++ "/";
    "Press Ctrl+C to stop" ].

Fixpoint all_space (s : string) : bool :=
  match s with
  | EmptyString => true
  | String c s' => PyInt.is_space c && all_space s'
  end.

Fixpoint all_chars (P : ascii -> bool) (s : string) : bool :=
  match s with
  | EmptyString => true
  | String c s' => P c && all_chars P s'
  end.

(** The characters a decimal integer literal for [int] is made of. *)
Definition port_char (c : ascii) : bool :=
  PyInt.is_digit c || Ascii.eqb c "_" || Ascii.eqb c "+" || Ascii.eqb c "-"
  || PyInt.is_space c.

(** * Lemmas *)

Section MonadLaws.
Context {A B : Type}.

Lemma bind_ok (m : M A) (k : A -> M B) (h h' : handler) (a : A) :
  m h = (Ok a, h') -> bind m k h = k a h'.
Proof. intros E. unfold bind. now rewrite E. Qed.

Lemma bind_raise (m : M A) (k : A -> M B) (h h' : handler) (e : exn) :
  m h = (Raise e, h') -> bind m k h = (Raise e, h').
Proof. intros E. unfold bind. now rewrite E. Qed.

End MonadLaws.

Create HintDb sound.

Lemma sound_ret {A : Type} (a : A) : Sound (ret a).
Proof.
  intros h. exists a, h. repeat split.
  exists []. split; [now rewrite app_nil_r | constructor].
Qed.

Lemma sound_bind {A B : Type} (m : M A) (k : A -> M B) :
  Sound m -> (forall a, Sound (k a)) -> Sound (bind m k).
Proof.
  intros Hm Hk h.
  destruct (Hm h) as (a & h1 & E1 & L1 & new1 & W1 & F1).
  destruct (Hk a h1) as (b & h2 & E2 & L2 & new2 & W2 & F2).
  exists b, h2. rewrite (bind_ok _ _ _ _ _ E1). split; [exact E2|].
  split; [congruence|].
  exists (new1 ++ new2)%list. split.
  - rewrite W2, W1. now rewrite app_assoc.
  - apply Forall_app. now split.
Qed.

Lemma sound_modify (f : handler -> handler) :
  (forall h, wfile (f h) = wfile h) -> (forall h, log (f h) = log h) ->
  Sound (modify f).
Proof.
  intros Hw Hl h. exists tt, (f h). repeat split; [apply Hl|].
  exists []. rewrite Hw, app_nil_r. split; [reflexivity | constructor].
Qed.

Ltac hsimpl :=
  cbn [set_buffer set_wfile set_close set_log headers_buffer wfile env
       request_of close_connection log fst snd].

Ltac hsimpl_in H :=
  cbn [set_buffer set_wfile set_close set_log headers_buffer wfile env
       request_of close_connection log fst snd] in H.

(** Unfolds the test on the request version once it is decided by [Hv]. *)
Ltac vsimpl Hv :=
  repeat (progress (unfold buffered, flushed, Base.has_headers; hsimpl;
                    rewrite ?Hv; cbn [negb]; hsimpl)).

Lemma sound_send_header (k v : string) : Sound (Base.send_header k v).
Proof.
  apply sound_modify; intros h;
    destruct (Base.has_headers h);
    destruct (String.eqb (Base.lower k) "connection");
    destruct (String.eqb (Base.lower v) "close");
    destruct (String.eqb (Base.lower v) "keep-alive"); reflexivity.
Qed.

Lemma sound_send_response_only (code : Z) (message : option string) :
  Sound (Base.send_response_only code message).
Proof.
  apply sound_modify; intros h; destruct (Base.has_headers h); reflexivity.
Qed.

Lemma sound_write_body (data : string) : Sound (Base.write_body data).
Proof.
  intros h. eexists tt, _. split; [reflexivity|]. split; [reflexivity|].
  exists [Payload data]. split; [reflexivity|].
  constructor; [exact I | constructor].
Qed.

(** A header other than Connection only adds its line to the buffer. *)
Lemma send_header_plain (k v : string) (h : handler) :
  String.eqb (Base.lower k) "connection" = false ->
  Base.send_header k v h = (Ok tt, buffered h [HeaderLine k v]).
Proof. intros E. unfold Base.send_header, modify, buffered. now rewrite E. Qed.

Lemma buffered_twice (h : handler) (a b : list line) :
  buffered (buffered h a) b = buffered h (a ++ b).
Proof.
  destruct h as [e r buf w c l].
  destruct (String.eqb (req_version r) "HTTP/0.9") eqn:Hv;
    vsimpl Hv; vsimpl Hv; [reflexivity | now rewrite app_assoc].
Qed.

Ltac step_header :=
  erewrite bind_ok;
  [| apply send_header_plain; vm_compute; reflexivity ].

(** What the overriding [end_headers] does: with headers, it writes the
    header section, what is in the buffer, then the four CORS lines, then
    the blank line; for an HTTP/0.9 request, nothing. *)
Lemma end_headers_run (h : handler) : end_headers h = (Ok tt, flushed h).
Proof.
  unfold end_headers. do 4 step_header.
  rewrite !buffered_twice. cbn [app]. fold cors_headers.
  destruct h as [e r buf w c l].
  destruct (String.eqb (req_version r) "HTTP/0.9") eqn:Hv;
    unfold Base.end_headers; vsimpl Hv; [reflexivity|].
  unfold Base.flush_headers, bind, modify. hsimpl.
  now rewrite <- app_assoc.
Qed.

Lemma sound_end_headers : Sound end_headers.
Proof.
  intros h. eexists tt, _. split; [apply end_headers_run|].
  unfold flushed. destruct (Base.has_headers h).
  - split; [reflexivity|]. hsimpl. eexists. split; [reflexivity|].
    constructor; [now exists (headers_buffer h) | constructor].
  - split; [reflexivity|]. exists []. rewrite app_nil_r.
    split; [reflexivity | constructor].
Qed.

Lemma log_filter_without_GET (format : string) (args : list pyval) :
  PyText.contains "GET" format = false -> log_filter format args = Ok false.
Proof. intros E. unfold log_filter. now rewrite E. Qed.

Lemma log_message_suppressed (format : string) (args : list pyval) (h : handler) :
  log_filter format args = Ok false -> log_message format args h = (Ok tt, h).
Proof. intros E. unfold log_message, bind, lift. now rewrite E. Qed.

Lemma sound_log_message (format : string) (args : list pyval) :
  PyText.contains "GET" format = false -> Sound (log_message format args).
Proof.
  intros E h. exists tt, h.
  rewrite log_message_suppressed by now apply log_filter_without_GET.
  repeat split. exists []. rewrite app_nil_r. split; [reflexivity | constructor].
Qed.

Lemma log_request_run (code : Z) (size : string) (h : handler) :
  Base.log_request code size h = (Ok tt, h).
Proof.
  unfold Base.log_request. cbn [self_log_message CORSHTTPRequestHandler].
  apply log_message_suppressed, log_filter_without_GET.
  vm_compute. reflexivity.
Qed.

Lemma log_error_run (args : list pyval) (h : handler) :
  Base.log_error "code %d, message %s" args h = (Ok tt, h).
Proof.
  unfold Base.log_error. cbn [self_log_message CORSHTTPRequestHandler].
  apply log_message_suppressed, log_filter_without_GET.
  vm_compute. reflexivity.
Qed.

(** [send_response]: nothing is logged; the status line and the Server
    and Date lines go to the buffer. *)
Lemma send_response_run (code : Z) (message : option string) (h : handler) :
  Base.send_response code message h =
  (Ok tt,
   buffered h
     [ StatusLine (protocol_version (env h)) code (Base.phrase h code message);
       HeaderLine "Server" (version_string (env h));
       HeaderLine "Date" (date_time_string (env h)) ]).
Proof.
  unfold Base.send_response.
  rewrite (bind_ok _ _ _ _ tt (log_request_run _ _ _)).
  assert (E : Base.send_response_only code message h =
              (Ok tt,
               buffered h [StatusLine (protocol_version (env h)) code
                             (Base.phrase h code message)])) by reflexivity.
  rewrite (bind_ok _ _ _ _ tt E).
  step_header. rewrite send_header_plain by (vm_compute; reflexivity).
  rewrite !buffered_twice. cbn [app].
  destruct h as [e r buf w c l].
  destruct (String.eqb (req_version r) "HTTP/0.9") eqn:Hv; vsimpl Hv;
    reflexivity.
Qed.

Lemma sound_log_request (code : Z) (size : string) :
  Sound (Base.log_request code size).
Proof.
  intros h. exists tt, h. split; [apply log_request_run|].
  split; [reflexivity|]. exists []. rewrite app_nil_r.
  split; [reflexivity | constructor].
Qed.

Lemma sound_send_response (code : Z) (message : option string) :
  Sound (Base.send_response code message).
Proof.
  unfold Base.send_response.
  apply sound_bind; [apply sound_log_request | intros _].
  apply sound_bind; [apply sound_send_response_only | intros _].
  apply sound_bind; [intros h | intros _ h]; apply sound_send_header.
Qed.

#[local] Hint Resolve sound_ret sound_send_header sound_send_response
  sound_write_body sound_end_headers : sound.

Lemma sound_send_error (code : Z) (message : option string) :
  Sound (Base.send_error code message).
Proof.
  intros h. unfold Base.send_error.
  destruct (match responses (env h) code with Some p => p | None => _ end)
    as [shortmsg longmsg].
  apply sound_bind.
  { unfold Base.log_error. cbn [self_log_message CORSHTTPRequestHandler].
    now apply sound_log_message. }
  intros _. apply sound_bind; [auto with sound | intros _].
  apply sound_bind; [auto with sound | intros _].
  apply sound_bind.
  { destruct (Base.error_has_body code); [|auto with sound].
    apply sound_bind; [auto with sound | intros _; auto with sound]. }
  intros _. apply sound_bind;
    [cbn [self_end_headers CORSHTTPRequestHandler]; auto with sound | intros _].
  destruct (Base.error_has_body code); [|auto with sound].
  destruct (_ && _); auto with sound.
Qed.

Lemma sound_run_call (c : call) : Sound (run_call c).
Proof.
  destruct c; cbn [run_call self_end_headers CORSHTTPRequestHandler];
    auto using sound_send_error, sound_send_response_only with sound.
Qed.

Lemma sound_run (script : list call) : Sound (run script).
Proof.
  induction script as [|c script IH]; cbn [run]; [auto with sound|].
  apply sound_bind; [apply sound_run_call | intros _; exact IH].
Qed.

Lemma sound_do_OPTIONS : Sound do_OPTIONS.
Proof.
  unfold do_OPTIONS. apply sound_bind; [auto with sound | intros _].
  cbn [self_end_headers CORSHTTPRequestHandler]. auto with sound.
Qed.

Lemma sound_handle_one_request (static : SimpleHTTPRequestHandler)
    (fs : filesystem) : Sound (handle_one_request static fs).
Proof.
  intros h. unfold handle_one_request.
  destruct (String.eqb _ "OPTIONS"); [apply sound_do_OPTIONS|].
  destruct (String.eqb _ "GET"); [apply sound_run|].
  destruct (String.eqb _ "HEAD"); [apply sound_run|].
  apply sound_send_error.
Qed.

Lemma handle_returns (e : server_env) (static : SimpleHTTPRequestHandler)
    (fs : filesystem) (r : request) :
  exists h',
    handle e static fs r = (Ok tt, h') /\ log h' = [] /\
    Forall sends_cors (wfile h').
Proof.
  destruct (sound_handle_one_request static fs (setup e r))
    as ([] & h' & E & L & new & W & F).
  exists h'. split; [exact E|]. split; [exact L|].
  rewrite W. exact F.
Qed.

Lemma send_header_connection_close (h : handler) :
  Base.send_header "Connection" "close" h =
  (Ok tt, set_close (buffered h [HeaderLine "Connection" "close"]) true).
Proof.
  unfold Base.send_header, modify, buffered.
  replace (String.eqb (Base.lower "Connection") "connection") with true
    by (vm_compute; reflexivity).
  replace (String.eqb (Base.lower "close") "close") with true
    by (vm_compute; reflexivity).
  reflexivity.
Qed.

(** The error reply of the library in the subclass, in closed form:
    nothing is logged, the connection is marked to be closed; where the
    request has headers, one header section is written, with the CORS
    lines; then the page, if there is one to write. *)
Lemma send_error_run (code : Z) (message : option string) (h : handler) :
  Base.send_error code message h =
  (Ok tt,
   mkHandler (env h) (request_of h)
     (if Base.has_headers h then [] else headers_buffer h)
     (wfile h
      ++ (if Base.has_headers h
          then [HeaderBlock (headers_buffer h
                             ++ error_lines (env h) code message
                             ++ cors_headers ++ [BlankLine])]
          else [])
      ++ error_payload h code message)
     true (log h)).
Proof.
  destruct h as [e r buf w c l].
  unfold Base.send_error, error_lines, error_payload, error_page, error_message.
  hsimpl.
  destruct (String.eqb (req_version r) "HTTP/0.9") eqn:Hv;
    destruct (Base.error_has_body code);
    destruct (responses e code) as [[short long]|];
    (rewrite (bind_ok _ _ _ _ tt (log_error_run _ _));
     rewrite (bind_ok _ _ _ _ tt (send_response_run _ _ _));
     rewrite (bind_ok _ _ _ _ tt (send_header_connection_close _));
     try (erewrite bind_ok;
          [| step_header; apply send_header_plain; vm_compute; reflexivity ]);
     try (rewrite (bind_ok _ _ _ _ tt eq_refl));
     cbn [self_end_headers CORSHTTPRequestHandler];
     rewrite (bind_ok _ _ _ _ tt (end_headers_run _));
     vsimpl Hv; unfold Base.phrase; hsimpl;
     cbn [andb];
     try match goal with
         | |- context [negb (String.eqb ?a ?b) && negb (String.eqb ?x ?y)] =>
             destruct (negb (String.eqb a b) && negb (String.eqb x y))
         end;
     unfold Base.write_body, modify, ret; hsimpl;
     rewrite ?app_nil_r; cbn [app];
     repeat rewrite <- app_assoc; reflexivity).
Qed.

(** ** Responses in closed form *)

Lemma run_writes (chunks : list string) (h : handler) :
  run (map Write chunks) h = (Ok tt, set_wfile h (wfile h ++ map Payload chunks)).
Proof.
  revert h. induction chunks as [|c chunks IH]; intros h.
  - destruct h. cbn [map run]. unfold ret. hsimpl. now rewrite app_nil_r.
  - cbn [map run run_call]. unfold bind, Base.write_body, modify.
    rewrite IH. destruct h. hsimpl. now rewrite <- app_assoc.
Qed.

Lemma run_app (a b : list call) (h h' : handler) :
  run a h = (Ok tt, h') -> run (a ++ b) h = run b h'.
Proof.
  revert h. induction a as [|c a IH]; intros h E.
  - cbn in E. injection E as <-. reflexivity.
  - cbn [app run] in *. unfold bind in *.
    destruct (run_call c h) as [[[]|e] h1]; [now apply IH | discriminate].
Qed.

Lemma do_OPTIONS_run (h : handler) :
  do_OPTIONS h =
  (Ok tt,
   flushed (buffered h
              [ StatusLine (protocol_version (env h)) 200 (Base.phrase h 200 None);
                HeaderLine "Server" (version_string (env h));
                HeaderLine "Date" (date_time_string (env h)) ])).
Proof.
  unfold do_OPTIONS. cbn [self_end_headers CORSHTTPRequestHandler].
  rewrite (bind_ok _ _ _ _ tt (send_response_run _ _ _)).
  apply end_headers_run.
Qed.

Ltac library_lines :=
  repeat (constructor;
          [eexists _, _; split;
           [reflexivity
           | unfold library_header_names; cbn [In];
             repeat (first [left; reflexivity | right])] |]);
  try constructor.

Ltac step_response :=
  rewrite (bind_ok _ _ _ _ tt (send_response_run _ _ _)).

Ltac step_end :=
  cbn [self_end_headers CORSHTTPRequestHandler];
  rewrite (bind_ok _ _ _ _ tt (end_headers_run _)).

(** What [send_head] with answer [reply] leaves on a fresh handler:
    with headers, one header section with the status of the answer, the
    headers of the library and the CORS lines; then the error page, if
    the answer is the 404 with one. *)
Lemma head_script_run (e : server_env) (r : request) (reply : static_reply) :
  exists message lines chunks c,
    run (head_script reply) (setup e r) =
    (Ok tt,
     mkHandler e r []
       ((if Base.has_headers (setup e r)
         then [HeaderBlock (StatusLine (protocol_version e) (reply_code reply)
                              message
                            :: lines ++ cors_headers ++ [BlankLine])]
         else [])
        ++ map Payload chunks) c [])
    /\ Forall library_line lines.
Proof.
  destruct reply as [location|message| |ctype size mtime chunks|ctype chunks];
    cbn [head_script run run_call reply_code].
  - eexists _, [_; _; _; _], [], _. split.
    step_response. do 2 step_header. step_end. unfold ret.
    rewrite !buffered_twice. cbn [app]. unfold setup.
    destruct (String.eqb (req_version r) "HTTP/0.9") eqn:Hv; vsimpl Hv;
      reflexivity.
      library_lines.
  - rewrite (bind_ok _ _ _ _ tt (send_error_run _ _ _)). unfold ret.
    unfold error_lines, error_payload.
    replace (Base.error_has_body 404) with true by (vm_compute; reflexivity).
    cbn [andb app]. unfold setup. hsimpl.
    destruct (negb (String.eqb (req_command r) "HEAD")
              && negb (String.eqb (error_page e 404 (Some message)) EmptyString)).
    + eexists _, [_; _; _; _; _], [_], _. split.
      destruct (String.eqb (req_version r) "HTTP/0.9") eqn:Hv; vsimpl Hv;
        reflexivity.
      library_lines.
    + eexists _, [_; _; _; _; _], [], _. split.
      destruct (String.eqb (req_version r) "HTTP/0.9") eqn:Hv; vsimpl Hv;
        reflexivity.
      library_lines.
  - eexists _, [_; _], [], _. split.
    step_response. step_end. unfold ret. unfold setup.
    destruct (String.eqb (req_version r) "HTTP/0.9") eqn:Hv; vsimpl Hv;
      reflexivity.
      library_lines.
  - eexists _, [_; _; _; _; _], [], _. split.
    step_response. do 3 step_header. step_end. unfold ret.
    rewrite !buffered_twice. cbn [app]. unfold setup.
    destruct (String.eqb (req_version r) "HTTP/0.9") eqn:Hv; vsimpl Hv;
      reflexivity.
      library_lines.
  - eexists _, [_; _; _; _], [], _. split.
    step_response. do 2 step_header. step_end. unfold ret.
    rewrite !buffered_twice. cbn [app]. unfold setup.
    destruct (String.eqb (req_version r) "HTTP/0.9") eqn:Hv; vsimpl Hv;
      reflexivity.
      library_lines.
Qed.

(** Every request in closed form: the handler returns normally, nothing
    is logged or left in the buffer; with headers, what is written is
    one header section, the status line of the request's status first
    and the CORS lines last, and then body bytes; for an HTTP/0.9 request
    it is body bytes alone. *)
Lemma handle_closed (e : server_env) (reply : static_reply) (fs : filesystem)
    (r : request) :
  exists message lines chunks c,
    handle e (answers reply) fs r =
    (Ok tt,
     mkHandler e r []
       ((if Base.has_headers (setup e r)
         then [HeaderBlock (StatusLine (protocol_version e)
                              (response_code r reply) message
                            :: lines ++ cors_headers ++ [BlankLine])]
         else [])
        ++ map Payload chunks) c [])
    /\ Forall library_line lines.
Proof.
  unfold handle, handle_one_request, response_code.
  cbn [setup request_of]. cbv zeta. fold (setup e r).
  destruct (String.eqb (req_command r) "OPTIONS").
  - eexists _, [_; _], [], _. split.
    rewrite do_OPTIONS_run. unfold setup.
    destruct (String.eqb (req_version r) "HTTP/0.9") eqn:Hv; vsimpl Hv;
      reflexivity.
      library_lines.
  - destruct (String.eqb (req_command r) "GET").
    + cbn [answers do_GET].
      destruct (head_script_run e r reply) as (m & lines & chunks & c & E & Hl).
      exists m, lines, (chunks ++ body_chunks reply)%list, c.
      split; [|exact Hl].
      rewrite (run_app _ _ _ _ E), run_writes. unfold set_wfile. hsimpl.
      now rewrite map_app, <- app_assoc.
    + destruct (String.eqb (req_command r) "HEAD") eqn:Hhead.
      * cbn [answers do_HEAD]. apply head_script_run.
      * rewrite send_error_run. unfold error_lines, error_payload.
        replace (Base.error_has_body 501) with true by (vm_compute; reflexivity).
        cbn [andb app]. unfold setup. hsimpl. rewrite Hhead.
        cbn [negb andb].
        destruct (String.eqb (error_page e 501 _) EmptyString);
          cbn [negb].
        -- eexists _, [_; _; _; _; _], [], _. split.
           destruct (String.eqb (req_version r) "HTTP/0.9") eqn:Hv; vsimpl Hv;
             reflexivity.
      library_lines.
        -- eexists _, [_; _; _; _; _], [_], _. split.
           destruct (String.eqb (req_version r) "HTTP/0.9") eqn:Hv; vsimpl Hv;
             reflexivity.
      library_lines.
Qed.

Lemma has_headers_setup (e : server_env) (r : request) :
  req_version r <> "HTTP/0.9" -> Base.has_headers (setup e r) = true.
Proof.
  intros H. unfold Base.has_headers, setup. hsimpl.
  apply negb_true_iff, String.eqb_neq, H.
Qed.

(** * The claims *)

(** C1, as the program has it.  A request whose version is not HTTP/0.9,
    whatever its method and whatever [send_head] answers, is answered
    normally by one header section, then body bytes: the section begins
    with the status line of the request's status (200, 301, 304, 404,
    501) and ends with the four lines Access-Control-Allow-Origin: *,
    Access-Control-Allow-Methods: GET, POST, OPTIONS,
    Access-Control-Allow-Headers: * and Access-Control-Allow-Credentials:
    true, followed by the blank line; so it is for the 404 of a GET.
    Every error reply of the library and the interim reply 100 sent
    while the request has headers end their header section in the same
    way.  A request of HTTP/0.9 is answered by body bytes alone, and an
    error reply sent while the request version is HTTP/0.9, as it is
    when the library rejects the request line for its version, is the
    error page alone, if there is one. *)
Theorem cors_headers_where_there_are_headers :
  forall (e : server_env) (reply : static_reply) (fs : filesystem) (r : request),
    fst (handle e (answers reply) fs r) = Ok tt
    /\ (req_version r <> "HTTP/0.9" ->
        cors_response (response_code r reply)
          (wfile (snd (handle e (answers reply) fs r))))
    /\ (req_version r <> "HTTP/0.9" -> req_command r = "GET" ->
        forall message,
          cors_response 404
            (wfile (snd (handle e (answers (NotFound message)) fs r))))
    /\ (forall code message h,
          Base.has_headers h = true ->
          wfile (snd (Base.send_error code message h)) =
          (wfile h
           ++ [HeaderBlock (headers_buffer h ++ error_lines (env h) code message
                            ++ cors_headers ++ [BlankLine])]
           ++ error_payload h code message)%list)
    /\ (forall code message h,
          Base.has_headers h = false ->
          wfile (snd (Base.send_error code message h)) =
          (wfile h ++ error_payload h code message)%list)
    /\ (forall h,
          Base.has_headers h = true ->
          wfile (snd (run [SendResponseOnly 100 None; EndHeaders] h)) =
          (wfile h
           ++ [HeaderBlock
                 (headers_buffer h
                  ++ [StatusLine (protocol_version (env h)) 100
                        (Base.phrase h 100 None)]
                  ++ cors_headers ++ [BlankLine])])%list)
    /\ (req_version r = "HTTP/0.9" ->
        exists chunks,
          wfile (snd (handle e (answers reply) fs r)) = map Payload chunks).
Proof.
  intros e reply fs r.
  assert (Hcors : forall reply', req_version r <> "HTTP/0.9" ->
            cors_response (response_code r reply')
              (wfile (snd (handle e (answers reply') fs r)))).
  { intros reply' Hv.
    destruct (handle_closed e reply' fs r) as (m & lines & chunks & c & E & Hl).
    rewrite E, (has_headers_setup e r Hv). hsimpl.
    exists (protocol_version e), m, lines, chunks. split; [reflexivity | exact Hl]. }
  destruct (handle_closed e reply fs r) as (m & lines & chunks & c & E & Hl).
  split; [now rewrite E|]. split; [apply Hcors|].
  split.
  { intros Hv Hget message. pose proof (Hcors (NotFound message) Hv) as H.
    unfold response_code in H. rewrite Hget in H. exact H. }
  split.
  { intros code message h Hh. rewrite send_error_run. hsimpl.
    now rewrite Hh. }
  split.
  { intros code message h Hh. rewrite send_error_run. hsimpl.
    now rewrite Hh. }
  split.
  { intros h Hh. cbn [run run_call self_end_headers CORSHTTPRequestHandler].
    assert (E1 : Base.send_response_only 100 None h =
                 (Ok tt, buffered h [StatusLine (protocol_version (env h)) 100
                                       (Base.phrase h 100 None)]))
      by reflexivity.
    rewrite (bind_ok _ _ _ _ tt E1).
    rewrite (bind_ok _ _ _ _ tt (end_headers_run _)). unfold ret.
    destruct h as [e0 r0 buf w c0 l]. unfold Base.has_headers in Hh.
    hsimpl_in Hh. apply negb_true_iff in Hh. vsimpl Hh.
    unfold Base.phrase. hsimpl. now rewrite <- app_assoc. }
  intros Hv. exists chunks. rewrite E. hsimpl.
  unfold Base.has_headers, setup. hsimpl. rewrite Hv. reflexivity.
Qed.

Lemma cors_headers_where_there_are_headers_witness :
  req_version get_missing_txt <> "HTTP/0.9"
  /\ req_command get_missing_txt = "GET"
  /\ cors_response 404
       (wfile (snd (handle sample_env (answers (NotFound "File not found"))
                      sample_fs get_missing_txt)))
  /\ Base.has_headers (setup sample_env post_any) = true
  /\ wfile (snd (Base.send_error 400 None (setup sample_env post_any))) =
     (wfile (setup sample_env post_any)
      ++ [HeaderBlock (headers_buffer (setup sample_env post_any)
                       ++ error_lines (env (setup sample_env post_any)) 400 None
                       ++ cors_headers ++ [BlankLine])]
      ++ error_payload (setup sample_env post_any) 400 None)%list
  /\ Base.has_headers (setup sample_env bad_version) = false
  /\ wfile (snd (Base.send_error 400 (Some "Bad request version ('HTTP/x')")
                   (setup sample_env bad_version))) =
     (wfile (setup sample_env bad_version)
      ++ error_payload (setup sample_env bad_version) 400
           (Some "Bad request version ('HTTP/x')"))%list
  /\ req_version get_sample_pdf_simple = "HTTP/0.9"
  /\ exists chunks,
       wfile (snd (handle sample_env (answers sample_pdf_reply) sample_fs
                     get_sample_pdf_simple)) = map Payload chunks.
Proof.
  assert (Hv : req_version get_missing_txt <> "HTTP/0.9") by discriminate.
  destruct (cors_headers_where_there_are_headers sample_env
              (NotFound "File not found") sample_fs get_missing_txt)
    as (_ & _ & H404 & Herr & Hbare & _ & _).
  destruct (cors_headers_where_there_are_headers sample_env
              sample_pdf_reply sample_fs get_sample_pdf_simple)
    as (_ & _ & _ & _ & _ & _ & H09).
  split; [exact Hv|]. split; [reflexivity|].
  split; [exact (H404 Hv eq_refl "File not found")|].
  split; [reflexivity|].
  split; [exact (Herr 400 None (setup sample_env post_any) eq_refl)|].
  split; [reflexivity|].
  split; [exact (Hbare 400 (Some "Bad request version ('HTTP/x')")
                   (setup sample_env bad_version) eq_refl)|].
  split; [reflexivity | exact (H09 eq_refl)].
Defined.

(** C1 fails for the simple request [GET /sample.pdf] of HTTP/0.9: the
    file is sent, and no status line and no header with it; none of the
    four CORS headers is in the response. *)
Lemma simple_request_gets_no_header :
  wfile (snd (handle sample_env (answers sample_pdf_reply) sample_fs
                get_sample_pdf_simple))
  = [Payload "%PDF-1.4"]
  /\ written_values "Access-Control-Allow-Origin"
       (snd (handle sample_env (answers sample_pdf_reply) sample_fs
               get_sample_pdf_simple)) = []
  /\ written_values "Access-Control-Allow-Origin"
       (snd (handle sample_env (answers sample_pdf_reply) sample_fs
               get_sample_pdf_simple)) <> ["*"].
Proof.
  split; [vm_compute; reflexivity|]. split; [vm_compute; reflexivity|].
  vm_compute. discriminate.
Qed.




(** No request is ever logged: the library logs a request with the
    format ["%s" %s %s], in which the filter looks for GET. *)
Lemma requests_are_never_logged (e : server_env)
    (static : SimpleHTTPRequestHandler) (fs : filesystem) (r : request) :
  log (snd (handle e static fs r)) = [].
Proof.
  destruct (handle_returns e static fs r) as (h' & E & L & _).
  now rewrite E.
Qed.

(** C3, at the input where the program departs from it.  A GET of
    /sample.pdf that is answered with status 200 reaches [log_message]
    with the library's format and the arguments (request line, '200',
    '-'); the filter answers no, because it looks for GET in the format
    and not in the request line, and the request leaves no log line. *)
Theorem get_sample_pdf_200_is_not_logged :
  PyText.contains "GET" (req_line get_sample_pdf) = true
  /\ PyText.contains ".pdf" (req_line get_sample_pdf) = true
  /\ log_filter Base.log_request_format
       [PyStr (req_line get_sample_pdf); PyStr "200"; PyStr "-"] = Ok false
  /\ (exists rest more,
        wfile (snd (handle sample_env sample_static sample_fs get_sample_pdf)) =
        HeaderBlock (StatusLine "HTTP/1.0" 200 "OK" :: rest) :: more)
  /\ log (snd (handle sample_env sample_static sample_fs get_sample_pdf)) = [].
Proof.
  repeat split; try reflexivity.
  eexists _, _. vm_compute. reflexivity.
Qed.

(** [end_headers] itself only adds lines: where the request has headers
    it writes the lines already in the buffer, then the four CORS lines,
    then the blank line, and removes nothing. *)
Lemma end_headers_only_adds (h : handler) (keyword : string) :
  Base.has_headers h = true ->
  end_headers h =
  (Ok tt,
   mkHandler (env h) (request_of h) []
     (wfile h ++ [HeaderBlock (headers_buffer h ++ cors_headers ++ [BlankLine])])
     (close_connection h) (log h))
  /\ header_values keyword (headers_buffer h ++ cors_headers ++ [BlankLine])
     = (header_values keyword (headers_buffer h)
        ++ header_values keyword cors_headers)%list.
Proof.
  intros Hh. split.
  - rewrite end_headers_run. unfold flushed. rewrite Hh. now destruct h.
  - unfold header_values. rewrite !flat_map_app. cbn [flat_map].
    now rewrite !app_nil_r.
Qed.






(** C9, as the program has it.  When the format contains GET, a call
    without arguments raises IndexError and a call whose first argument
    has no membership test (None, an integer) raises TypeError; in both
    cases nothing is logged. *)
Theorem log_message_is_partial :
  forall (format : string) (args : list pyval) (h : handler),
    PyText.contains "GET" format = true ->
    (args = [] -> log_message format args h = (Raise IndexError, h))
    /\ (forall a rest, args = a :: rest -> not_iterable a = true ->
          log_message format args h = (Raise TypeError, h)).
Proof.
  intros format args h HG. split.
  - intros ->. unfold log_message, bind, lift, log_filter. now rewrite HG.
  - intros a rest -> Ha. unfold log_message, bind, lift, log_filter.
    rewrite HG. destruct a; cbn in Ha; try discriminate; reflexivity.
Qed.

Lemma log_message_is_partial_witness :
  PyText.contains "GET" "GET %s" = true
  /\ log_message "GET %s" [] (setup sample_env get_sample_pdf)
     = (Raise IndexError, setup sample_env get_sample_pdf)
  /\ not_iterable (PyInt 404) = true
  /\ log_message "GET %s" [PyInt 404] (setup sample_env get_sample_pdf)
     = (Raise TypeError, setup sample_env get_sample_pdf).
Proof.
  split; [reflexivity|].
  split.
  - apply (proj1 (log_message_is_partial "GET %s" []
                    (setup sample_env get_sample_pdf) eq_refl)).
    reflexivity.
  - split; [reflexivity|].
    apply (proj2 (log_message_is_partial "GET %s" [PyInt 404]
                    (setup sample_env get_sample_pdf) eq_refl)
             (PyInt 404) []); reflexivity.
Defined.

(** C9 fails for a first argument that is not a string but has a
    membership test: with a list the condition is evaluated without an
    exception, and here the line is logged. *)
Lemma list_argument_raises_nothing :
  PyText.contains "GET" "GET %s" = true
  /\ (forall s, PyList [PyStr ".pdf"] <> PyStr s)
  /\ log_filter "GET %s" [PyList [PyStr ".pdf"]] = Ok true
  /\ fst (log_message "GET %s" [PyList [PyStr ".pdf"]]
            (setup sample_env get_sample_pdf)) <> Raise TypeError.
Proof.
  split; [reflexivity|]. split; [discriminate|]. split; [reflexivity|].
  cbn. discriminate.
Qed.

(** ** The start-up script *)

Lemma unsigned_raises (s : string) (e : exn) :
  PyInt.unsigned s = Raise e -> e = ValueError.
Proof.
  unfold PyInt.unsigned. destruct s as [|c s]; [congruence|].
  destruct (PyInt.is_digit c); [|congruence].
  destruct (PyInt.digits _ _ _) as [[n count]|]; [|congruence].
  destruct (PyInt.max_str_digits <? count); congruence.
Qed.

(** [int] raises nothing but ValueError. *)
Lemma int_raises (s : string) (e : exn) :
  PyInt.int s = Raise e -> e = ValueError.
Proof.
  unfold PyInt.int. destruct (PyInt.strip s) as [|c s']; [congruence|].
  destruct (Ascii.eqb c "+"); [apply unsigned_raises|].
  destruct (Ascii.eqb c "-"); [|apply unsigned_raises].
  destruct (PyInt.unsigned s') as [n|e'] eqn:E; cbn; [congruence|].
  intros [= <-]. now apply unsigned_raises with s'.
Qed.

Lemma parse_port_default (argv : list string) :
  (length argv <= 1)%nat -> parse_port argv = Ok 8080.
Proof.
  intros H. unfold parse_port.
  destruct (Nat.ltb_spec 1 (length argv)); [lia | reflexivity].
Qed.

Lemma parse_port_argument (prog s : string) (rest : list string) :
  parse_port (prog :: s :: rest) = PyInt.int s.
Proof. reflexivity. Qed.

(** The script once the port is known: one socket, one [bind] on the
    parsed port; the three lines are printed only after the constructor
    has returned. *)
Lemma main_after_parse (argv : list string) (can_bind : Z -> bool) (port : Z) :
  parse_port argv = Ok port ->
  main argv can_bind =
  match socket_bind can_bind port with
  | Ok _ =>
      ([ Chdir; SocketOpen; Bind EmptyString port;
         Listen TCPServer.request_queue_size;
         Print ("Serving with CORS on port " ++ PyText.str_of_int port);
         Print ("Files available at: http://localhost:"
                ++ PyText.str_of_int port ++ "/");
         Print "Press Ctrl+C to stop";
         ServeForever ],
       Serving port)
  | Raise e =>
      ([Chdir; SocketOpen; Bind EmptyString port; SocketClose], Crashed e)
  end.
Proof.
  intros E. unfold main, TCPServer.init, TCPServer.server_bind. rewrite E.
  cbn. destruct (socket_bind can_bind port); reflexivity.
Qed.

Lemma main_binds_parsed_port (argv : list string) (can_bind : Z -> bool)
    (port : Z) :
  parse_port argv = Ok port ->
  bound_ports (fst (main argv can_bind)) = [port]
  /\ sockopts_set (fst (main argv can_bind)) = [].
Proof.
  intros E. rewrite (main_after_parse _ _ _ E).
  destruct (socket_bind can_bind port); split; reflexivity.
Qed.

(** C4, as the program has it.  The listener is a plain
    [socketserver.TCPServer], whose [allow_reuse_address] is false: on
    no command line and in no state of the ports does the script set a
    socket option, so the socket is bound without SO_REUSEADDR. *)
Theorem listener_sets_no_socket_option :
  forall (argv : list string) (can_bind : Z -> bool),
    TCPServer.allow_reuse_address = false
    /\ sockopts_set (fst (main argv can_bind)) = []
    /\ sockopts_set (fst (interrupt (main argv can_bind))) = [].
Proof.
  intros argv can_bind. split; [reflexivity|].
  unfold main. destruct (parse_port argv) as [port|e]; [|split; reflexivity].
  unfold TCPServer.init, TCPServer.server_bind. cbn.
  destruct (socket_bind can_bind port); split; reflexivity.
Qed.

(** C4 fails on the plain invocation: the socket is bound on port 8080
    and the server serves, and SO_REUSEADDR was not set on it. *)
Lemma default_listener_without_reuseaddr :
  snd (main ["cors_server.py"] (fun _ => true)) = Serving 8080
  /\ bound_ports (fst (main ["cors_server.py"] (fun _ => true))) = [8080]
  /\ ~ In (SetSockOpt SO_REUSEADDR) (fst (main ["cors_server.py"] (fun _ => true))).
Proof.
  split; [reflexivity|]. split; [reflexivity|].
  cbn. intros H. repeat (destruct H as [H|H]; [discriminate H|]). exact H.
Qed.

(** C6. When the requested port cannot be bound (in use, not permitted,
    out of range), the script ends by the uncaught exception of the
    constructor, with exit status 1; nothing has been printed, and the
    one [bind] the process made was on the requested port. *)
Theorem bind_failure_is_fatal :
  forall (argv : list string) (can_bind : Z -> bool) (port : Z) (e : exn),
    parse_port argv = Ok port ->
    socket_bind can_bind port = Raise e ->
    main argv can_bind =
      ([Chdir; SocketOpen; Bind EmptyString port; SocketClose], Crashed e)
    /\ exit_status (snd (main argv can_bind)) = Some 1
    /\ printed (fst (main argv can_bind)) = []
    /\ bound_ports (fst (main argv can_bind)) = [port].
Proof.
  intros argv can_bind port e Hp Hb.
  rewrite (main_after_parse _ _ _ Hp), Hb. repeat split.
Qed.

Lemma bind_failure_is_fatal_witness :
  parse_port ["cors_server.py"; "9090"] = Ok 9090
  /\ socket_bind (fun p => negb (p =? 9090)) 9090 = Raise OSError
  /\ main ["cors_server.py"; "9090"] (fun p => negb (p =? 9090)) =
       ([Chdir; SocketOpen; Bind EmptyString 9090; SocketClose], Crashed OSError)
  /\ exit_status (snd (main ["cors_server.py"; "9090"] (fun p => negb (p =? 9090))))
     = Some 1
  /\ printed (fst (main ["cors_server.py"; "9090"] (fun p => negb (p =? 9090)))) = []
  /\ bound_ports (fst (main ["cors_server.py"; "9090"] (fun p => negb (p =? 9090))))
     = [9090].
Proof.
  split; [reflexivity|]. split; [reflexivity|].
  apply (bind_failure_is_fatal ["cors_server.py"; "9090"]
           (fun p => negb (p =? 9090)) 9090 OSError); reflexivity.
Defined.

(** C7. When there is a port argument and [int] accepts no value for it,
    the script ends by the uncaught ValueError with exit status 1 before
    it has done anything: no socket is opened, no port is bound (8080 is
    not tried) and nothing is printed. *)
Theorem non_integer_port_is_fatal :
  forall (argv : list string) (can_bind : Z -> bool),
    (1 < length argv)%nat ->
    (forall n, PyInt.int (nth 1 argv EmptyString) <> Ok n) ->
    main argv can_bind = ([], Crashed ValueError)
    /\ exit_status (snd (main argv can_bind)) = Some 1
    /\ filter is_socket_event (fst (main argv can_bind)) = []
    /\ bound_ports (fst (main argv can_bind)) = [].
Proof.
  intros argv can_bind Hlen Hint.
  assert (E : main argv can_bind = ([], Crashed ValueError)).
  { unfold main, parse_port.
    destruct (Nat.ltb_spec 1 (length argv)); [|lia].
    destruct (PyInt.int (nth 1 argv EmptyString)) as [n|e] eqn:Ei.
    - now destruct (Hint n).
    - now rewrite (int_raises _ _ Ei). }
  rewrite E. repeat split.
Qed.

Lemma non_integer_port_is_fatal_witness :
  (1 < length ["cors_server.py"; "eighty"])%nat
  /\ (forall n, PyInt.int (nth 1 ["cors_server.py"; "eighty"] EmptyString) <> Ok n)
  /\ main ["cors_server.py"; "eighty"] (fun _ => true) = ([], Crashed ValueError)
  /\ exit_status (snd (main ["cors_server.py"; "eighty"] (fun _ => true))) = Some 1
  /\ filter is_socket_event (fst (main ["cors_server.py"; "eighty"] (fun _ => true))) = []
  /\ bound_ports (fst (main ["cors_server.py"; "eighty"] (fun _ => true))) = [].
Proof.
  assert (H1 : (1 < length ["cors_server.py"; "eighty"])%nat) by (cbn; lia).
  assert (H2 : forall n,
             PyInt.int (nth 1 ["cors_server.py"; "eighty"] EmptyString) <> Ok n)
    by (intros n; vm_compute; discriminate).
  split; [exact H1|]. split; [exact H2|].
  exact (non_integer_port_is_fatal ["cors_server.py"; "eighty"] (fun _ => true) H1 H2).
Defined.

(** C8. Without a port argument the one [bind] of the script is on port
    8080, with the argument 9090 it is on port 9090, and in general on
    the value [int] gives for the argument; when the operating system
    grants the port the server serves on it. *)
Theorem port_argument_selects_the_port :
  forall (prog : string) (can_bind : Z -> bool),
    bound_ports (fst (main [prog] can_bind)) = [8080]
    /\ (forall rest,
          bound_ports (fst (main (prog :: "9090" :: rest) can_bind)) = [9090])
    /\ (forall s rest n,
          PyInt.int s = Ok n ->
          bound_ports (fst (main (prog :: s :: rest) can_bind)) = [n])
    /\ (forall argv n,
          parse_port argv = Ok n -> socket_bind can_bind n = Ok tt ->
          snd (main argv can_bind) = Serving n).
Proof.
  intros prog can_bind. split; [|split; [|split]].
  - now apply main_binds_parsed_port.
  - intros rest. now apply main_binds_parsed_port.
  - intros s rest n E. apply main_binds_parsed_port.
    now rewrite parse_port_argument.
  - intros argv n Hp Hb. now rewrite (main_after_parse _ _ _ Hp), Hb.
Qed.

Lemma port_argument_selects_the_port_witness :
  bound_ports (fst (main ["cors_server.py"] (fun _ => true))) = [8080]
  /\ bound_ports (fst (main ["cors_server.py"; "9090"] (fun _ => true))) = [9090]
  /\ PyInt.int "8000" = Ok 8000
  /\ bound_ports (fst (main ["cors_server.py"; "8000"] (fun _ => true))) = [8000]
  /\ parse_port ["cors_server.py"] = Ok 8080
  /\ socket_bind (fun _ => true) 8080 = Ok tt
  /\ snd (main ["cors_server.py"] (fun _ => true)) = Serving 8080.
Proof.
  destruct (port_argument_selects_the_port "cors_server.py" (fun _ => true))
    as (H1 & H2 & H3 & H4).
  split; [exact H1|]. split; [exact (H2 [])|].
  split; [reflexivity|]. split; [exact (H3 "8000" [] 8000 eq_refl)|].
  split; [reflexivity|]. split; [reflexivity|].
  exact (H4 ["cors_server.py"] 8080 eq_refl eq_refl).
Defined.

(** C10. The port is whatever [int] makes of the argument, with no test
    of its sign: -1, a padded 9090, +80 and 0 are all parsed.  Every
    parsed port, positive or not, is handed to [bind]; when the script
    then fails, the exception is the one [bind] raised, and for a
    negative port that is OverflowError. *)
Theorem parse_port_accepts_what_int_accepts :
  forall (prog : string) (can_bind : Z -> bool),
    (forall s rest n,
       PyInt.int s = Ok n -> parse_port (prog :: s :: rest) = Ok n)
    /\ parse_port [prog; "-1"] = Ok (-1)
    /\ parse_port [prog; " 9090 "] = Ok 9090
    /\ parse_port [prog; "+80"] = Ok 80
    /\ parse_port [prog; "0"] = Ok 0
    /\ (forall argv n,
          parse_port argv = Ok n ->
          In (Bind EmptyString n) (fst (main argv can_bind)))
    /\ (forall argv n e,
          parse_port argv = Ok n ->
          snd (main argv can_bind) = Crashed e ->
          socket_bind can_bind n = Raise e)
    /\ (forall argv n,
          parse_port argv = Ok n -> n < 0 ->
          main argv can_bind =
            ([Chdir; SocketOpen; Bind EmptyString n; SocketClose],
             Crashed OverflowError)).
Proof.
  intros prog can_bind.
  split; [intros s rest n E; now rewrite parse_port_argument|].
  do 4 (split; [reflexivity|]).
  split; [|split].
  - intros argv n Hp. rewrite (main_after_parse _ _ _ Hp).
    destruct (socket_bind can_bind n); cbn; auto.
  - intros argv n e Hp. rewrite (main_after_parse _ _ _ Hp).
    destruct (socket_bind can_bind n) as [[]|e']; cbn; congruence.
  - intros argv n Hp Hn. rewrite (main_after_parse _ _ _ Hp).
    unfold socket_bind. destruct (Z.ltb_spec n 0); [reflexivity | lia].
Qed.

Lemma parse_port_accepts_what_int_accepts_witness :
  PyInt.int "-1" = Ok (-1)
  /\ parse_port ["cors_server.py"; "-1"] = Ok (-1)
  /\ In (Bind EmptyString (-1)) (fst (main ["cors_server.py"; "-1"] (fun _ => true)))
  /\ snd (main ["cors_server.py"; "-1"] (fun _ => true)) = Crashed OverflowError
  /\ socket_bind (fun _ => true) (-1) = Raise OverflowError
  /\ -1 < 0
  /\ main ["cors_server.py"; "-1"] (fun _ => true) =
       ([Chdir; SocketOpen; Bind EmptyString (-1); SocketClose],
        Crashed OverflowError).
Proof.
  destruct (parse_port_accepts_what_int_accepts "cors_server.py" (fun _ => true))
    as (H1 & _ & _ & _ & _ & H2 & H3 & H4).
  split; [reflexivity|].
  split; [exact (H1 "-1" [] (-1) eq_refl)|].
  split; [exact (H2 ["cors_server.py"; "-1"] (-1) eq_refl)|].
  split; [reflexivity|].
  split; [exact (H3 ["cors_server.py"; "-1"] (-1) OverflowError eq_refl eq_refl)|].
  split; [reflexivity|].
  exact (H4 ["cors_server.py"; "-1"] (-1) eq_refl eq_refl).
Defined.

(** * Further properties *)

(** ** The subclass against the inherited handler *)
















(** ** Methods the class does not have *)



(** ** The log filter *)
























(** ** Start-up and shutdown *)

(** X7.  How a run of the script stands when [main] is through: either
    the server serves, and then the events are, in this order, the change
    of directory, the socket, one bind on the port, listen, the three
    lines naming that same port, and [serve_forever]; or the script has
    crashed, and then nothing at all was printed.  It never ends normally
    by itself. *)
Theorem banner_only_when_listening :
  forall (argv : list string) (can_bind : Z -> bool),
    match snd (main argv can_bind) with
    | Serving port =>
        fst (main argv can_bind) =
          ([Chdir; SocketOpen; Bind EmptyString port;
            Listen TCPServer.request_queue_size]
           ++ map Print (serving_lines port) ++ [ServeForever])%list
        /\ printed (fst (main argv can_bind)) = serving_lines port
        /\ bound_ports (fst (main argv can_bind)) = [port]
    | Crashed _ => printed (fst (main argv can_bind)) = []
    | Exited => False
    end.
Proof.
  intros argv can_bind.
  destruct (parse_port argv) as [port|e] eqn:Hp.
  - rewrite (main_after_parse _ _ _ Hp).
    destruct (socket_bind can_bind port); cbn [snd fst]; repeat split.
  - unfold main. rewrite Hp. reflexivity.
Qed.

(** X8.  No socket is left open by a run that has ended.  While the
    server serves, one socket is open; after a crash, and after the
    interrupt that ends the serving, every socket that was opened has
    been closed, and a run opens one socket at most. *)
Theorem sockets_are_closed :
  forall (argv : list string) (can_bind : Z -> bool),
    (opened (fst (main argv can_bind)) <= 1)%nat
    /\ match snd (main argv can_bind) with
       | Serving _ =>
           opened (fst (main argv can_bind)) = 1%nat
           /\ closed (fst (main argv can_bind)) = 0%nat
       | _ => closed (fst (main argv can_bind)) = opened (fst (main argv can_bind))
       end
    /\ (exists status,
          exit_status (snd (interrupt (main argv can_bind))) = Some status)
    /\ closed (fst (interrupt (main argv can_bind)))
       = opened (fst (interrupt (main argv can_bind))).
Proof.
  intros argv can_bind.
  destruct (parse_port argv) as [port|e] eqn:Hp.
  - rewrite (main_after_parse _ _ _ Hp).
    destruct (socket_bind can_bind port); cbn; repeat split;
      try lia; eexists; reflexivity.
  - unfold main. rewrite Hp. cbn. repeat split; try lia.
    eexists; reflexivity.
Qed.

(** X9.  An interrupt while the server serves ends the script cleanly:
    the events so far stay, then "Server stopped" is printed after a
    line feed, the server is shut down and the socket closed, and the
    exit status is 0; four lines have been printed in all.  An interrupt
    changes nothing in a run that has crashed. *)
Theorem interrupt_ends_cleanly :
  forall (argv : list string) (can_bind : Z -> bool),
    (forall port,
       snd (main argv can_bind) = Serving port ->
       interrupt (main argv can_bind) =
         ((fst (main argv can_bind)
           ++ [Print (String (PyText.chr 10) "Server stopped");
               Shutdown; SocketClose])%list,
          Exited)
       /\ exit_status (snd (interrupt (main argv can_bind))) = Some 0
       /\ printed (fst (interrupt (main argv can_bind))) =
          (serving_lines port ++ [String (PyText.chr 10) "Server stopped"])%list)
    /\ (forall e,
          snd (main argv can_bind) = Crashed e ->
          interrupt (main argv can_bind) = main argv can_bind).
Proof.
  intros argv can_bind. split.
  - intros port Hs. destruct (parse_port argv) as [p|e] eqn:Hp.
    + rewrite (main_after_parse _ _ _ Hp) in *.
      destruct (socket_bind can_bind p); [|discriminate].
      cbn [snd] in Hs. injection Hs as ->. repeat split.
    + unfold main in Hs. rewrite Hp in Hs. discriminate.
  - intros e Hc. destruct (main argv can_bind) as [evs out].
    cbn [snd] in Hc. now subst out.
Qed.

Lemma interrupt_ends_cleanly_witness :
  snd (main ["cors_server.py"; "9090"] (fun _ => true)) = Serving 9090
  /\ exit_status (snd (interrupt (main ["cors_server.py"; "9090"] (fun _ => true))))
     = Some 0
  /\ snd (main ["cors_server.py"; "9090"] (fun _ => false)) = Crashed OSError
  /\ interrupt (main ["cors_server.py"; "9090"] (fun _ => false))
     = main ["cors_server.py"; "9090"] (fun _ => false).
Proof.
  split; [reflexivity|].
  split.
  - exact (proj1 (proj2 (proj1 (interrupt_ends_cleanly
                                  ["cors_server.py"; "9090"] (fun _ => true))
                           9090 eq_refl))).
  - split; [reflexivity|].
    exact (proj2 (interrupt_ends_cleanly
                    ["cors_server.py"; "9090"] (fun _ => false))
             OSError eq_refl).
Defined.

(** X10.  The script comes to [serve_forever] only after a [bind] that
    was given the parsed port, that port being between 0 and 65535, and
    that the operating system has granted.  A port above 65535 is parsed
    like any other and makes the script crash at [bind] with
    OverflowError, whatever the state of the ports. *)
Theorem served_port_is_in_range :
  forall (argv : list string) (can_bind : Z -> bool),
    (forall port,
       In ServeForever (fst (main argv can_bind)) ->
       In (Bind EmptyString port) (fst (main argv can_bind)) ->
       parse_port argv = Ok port /\ 0 <= port <= 65535 /\ can_bind port = true)
    /\ (forall port,
          parse_port argv = Ok port -> 65535 < port ->
          main argv can_bind =
            ([Chdir; SocketOpen; Bind EmptyString port; SocketClose],
             Crashed OverflowError)).
Proof.
  intros argv can_bind. split.
  - intros port Hs Hb. destruct (parse_port argv) as [p|e] eqn:Hp.
    + rewrite (main_after_parse _ _ _ Hp) in Hs, Hb. unfold socket_bind in *.
      destruct (Z.ltb_spec p 0);
        [cbn [orb fst In] in Hs; intuition discriminate|].
      destruct (Z.ltb_spec 65535 p);
        [cbn [orb fst In] in Hs; intuition discriminate|].
      cbn [orb] in Hs, Hb.
      destruct (can_bind p) eqn:Hc;
        [|cbn [fst In] in Hs; intuition discriminate].
      cbn [fst In] in Hb.
      assert (p = port) as <-
          by (repeat (destruct Hb as [Hb|Hb]; try discriminate Hb);
              [now injection Hb | contradiction]).
      repeat split; auto; lia.
    + unfold main in Hs. rewrite Hp in Hs. contradiction.
  - intros port Hp Hbig. rewrite (main_after_parse _ _ _ Hp).
    unfold socket_bind. destruct (Z.ltb_spec port 0); [reflexivity|].
    destruct (Z.ltb_spec 65535 port); [reflexivity | lia].
Qed.

Lemma served_port_is_in_range_witness :
  In ServeForever (fst (main ["cors_server.py"; "8000"] (fun _ => true)))
  /\ In (Bind EmptyString 8000)
       (fst (main ["cors_server.py"; "8000"] (fun _ => true)))
  /\ 0 <= 8000 <= 65535
  /\ parse_port ["cors_server.py"; "70000"] = Ok 70000
  /\ 65535 < 70000
  /\ main ["cors_server.py"; "70000"] (fun _ => true) =
       ([Chdir; SocketOpen; Bind EmptyString 70000; SocketClose],
        Crashed OverflowError).
Proof.
  assert (Hs : In ServeForever
                 (fst (main ["cors_server.py"; "8000"] (fun _ => true))))
    by (vm_compute; tauto).
  assert (Hb : In (Bind EmptyString 8000)
                 (fst (main ["cors_server.py"; "8000"] (fun _ => true))))
    by (vm_compute; tauto).
  destruct (served_port_is_in_range ["cors_server.py"; "8000"] (fun _ => true))
    as [H1 _].
  destruct (served_port_is_in_range ["cors_server.py"; "70000"] (fun _ => true))
    as [_ H2].
  split; [exact Hs|]. split; [exact Hb|].
  split; [exact (proj1 (proj2 (H1 8000 Hs Hb)))|].
  split; [reflexivity|]. split; [reflexivity|].
  exact (H2 70000 eq_refl eq_refl).
Defined.

(** ** White space around the port argument *)

Lemma lstrip_all_space (s : string) :
  all_space s = true -> PyInt.lstrip s = EmptyString.
Proof.
  induction s as [|c s IH]; [reflexivity|]. cbn [all_space PyInt.lstrip].
  intros H. apply andb_true_iff in H as [Hc Hs]. now rewrite Hc, IH.
Qed.

Lemma lstrip_pad (pad s : string) :
  all_space pad = true -> PyInt.lstrip (pad ++ s) = PyInt.lstrip s.
Proof.
  induction pad as [|c pad IH]; [reflexivity|]. cbn [all_space append PyInt.lstrip].
  intros H. apply andb_true_iff in H as [Hc Hs]. now rewrite Hc, IH.
Qed.

Lemma all_space_app (a b : string) :
  all_space (a ++ b) = all_space a && all_space b.
Proof.
  induction a as [|c a IH]; [reflexivity|]. cbn [all_space append].
  now rewrite IH, andb_assoc.
Qed.

Lemma lstrip_keeps_tail (s pad : string) :
  all_space s = false -> PyInt.lstrip (s ++ pad) = PyInt.lstrip s ++ pad.
Proof.
  induction s as [|c s IH]; [discriminate|]. cbn [all_space append PyInt.lstrip].
  destruct (PyInt.is_space c); [exact IH | reflexivity].
Qed.

Lemma string_app_assoc (a b c : string) : (a ++ b) ++ c = a ++ (b ++ c).
Proof.
  induction a as [|x a IH]; [reflexivity|]. cbn [append]. now rewrite IH.
Qed.

Lemma string_app_nil_r (a : string) : a ++ EmptyString = a.
Proof.
  induction a as [|x a IH]; [reflexivity|]. cbn [append]. now rewrite IH.
Qed.

Lemma rev_onto_app (s acc : string) :
  PyInt.rev_onto s acc = PyInt.rev s ++ acc.
Proof.
  unfold PyInt.rev. revert acc.
  induction s as [|c s IH]; intros acc; [reflexivity|]. cbn [PyInt.rev_onto].
  rewrite IH, (IH (String c EmptyString)).
  rewrite string_app_assoc. reflexivity.
Qed.

Lemma rev_app (a b : string) :
  PyInt.rev (a ++ b) = PyInt.rev b ++ PyInt.rev a.
Proof.
  induction a as [|c a IH].
  - cbn [append]. now rewrite string_app_nil_r.
  - cbn [append]. unfold PyInt.rev at 1 3. cbn [PyInt.rev_onto].
    rewrite !rev_onto_app, IH. now rewrite string_app_assoc.
Qed.

Lemma all_space_rev (s : string) : all_space (PyInt.rev s) = all_space s.
Proof.
  induction s as [|c s IH]; [reflexivity|].
  change (String c s) with (String c EmptyString ++ s) at 1.
  rewrite rev_app, all_space_app, IH. cbn [all_space PyInt.rev PyInt.rev_onto].
  unfold PyInt.rev. cbn [PyInt.rev_onto all_space].
  rewrite andb_true_r. apply andb_comm.
Qed.

(** White space on either side does not change what [strip] gives. *)
Lemma strip_pad (pad1 s pad2 : string) :
  all_space pad1 = true -> all_space pad2 = true ->
  PyInt.strip (pad1 ++ s ++ pad2) = PyInt.strip s.
Proof.
  intros H1 H2. unfold PyInt.strip. rewrite (lstrip_pad _ _ H1).
  destruct (all_space s) eqn:Hs.
  - rewrite (lstrip_all_space s Hs).
    rewrite (lstrip_all_space (s ++ pad2))
      by (rewrite all_space_app, Hs, H2; reflexivity).
    reflexivity.
  - rewrite (lstrip_keeps_tail _ _ Hs), rev_app.
    rewrite lstrip_pad by (now rewrite all_space_rev).
    reflexivity.
Qed.

(** X12.  White space before and after the port argument, in any number,
    makes no difference: the padded argument is parsed, or rejected,
    exactly as the bare one, and the script runs the same. *)
Theorem padding_is_ignored :
  forall (prog pad1 s pad2 : string) (rest : list string) (can_bind : Z -> bool),
    all_space pad1 = true -> all_space pad2 = true ->
    parse_port (prog :: (pad1 ++ s ++ pad2) :: rest) = parse_port (prog :: s :: rest)
    /\ main (prog :: (pad1 ++ s ++ pad2) :: rest) can_bind
       = main (prog :: s :: rest) can_bind.
Proof.
  intros prog pad1 s pad2 rest can_bind H1 H2.
  assert (E : parse_port (prog :: (pad1 ++ s ++ pad2) :: rest)
              = parse_port (prog :: s :: rest)).
  { rewrite !parse_port_argument. unfold PyInt.int.
    now rewrite (strip_pad _ _ _ H1 H2). }
  split; [exact E|]. unfold main. now rewrite E.
Qed.

Lemma padding_is_ignored_witness :
  all_space " " = true
  /\ all_space (String (PyText.chr 9) (String (PyText.chr 10) EmptyString)) = true
  /\ parse_port
       ["cors_server.py";
        " " ++ "9090" ++ String (PyText.chr 9) (String (PyText.chr 10) EmptyString)]
     = parse_port ["cors_server.py"; "9090"].
Proof.
  split; [reflexivity|]. split; [reflexivity|].
  exact (proj1 (padding_is_ignored "cors_server.py" " " "9090"
                  (String (PyText.chr 9) (String (PyText.chr 10) EmptyString))
                  [] (fun _ => true) eq_refl eq_refl)).
Defined.

(** ** Which arguments [int] takes *)

Lemma all_chars_app (P : ascii -> bool) (a b : string) :
  all_chars P (a ++ b) = all_chars P a && all_chars P b.
Proof.
  induction a as [|c a IH]; [reflexivity|]. cbn [all_chars append].
  now rewrite IH, andb_assoc.
Qed.

Lemma all_chars_rev (P : ascii -> bool) (s : string) :
  all_chars P (PyInt.rev s) = all_chars P s.
Proof.
  induction s as [|c s IH]; [reflexivity|].
  change (String c s) with (String c EmptyString ++ s) at 1.
  rewrite rev_app, all_chars_app, IH.
  unfold PyInt.rev. cbn [PyInt.rev_onto all_chars].
  rewrite andb_true_r. apply andb_comm.
Qed.

(** [lstrip] only drops white space. *)
Lemma all_chars_lstrip (P : ascii -> bool) (s : string) :
  (forall c, PyInt.is_space c = true -> P c = true) ->
  all_chars P (PyInt.lstrip s) = true -> all_chars P s = true.
Proof.
  intros HP. induction s as [|c s IH]; [reflexivity|].
  cbn [PyInt.lstrip]. destruct (PyInt.is_space c) eqn:Hc; [|auto].
  intros H. cbn [all_chars]. now rewrite (HP c Hc), IH.
Qed.

Lemma all_chars_strip (P : ascii -> bool) (s : string) :
  (forall c, PyInt.is_space c = true -> P c = true) ->
  all_chars P (PyInt.strip s) = true -> all_chars P s = true.
Proof.
  intros HP H. unfold PyInt.strip in H. rewrite all_chars_rev in H.
  apply (all_chars_lstrip P _ HP) in H. rewrite all_chars_rev in H.
  now apply (all_chars_lstrip P _ HP).
Qed.

Lemma digits_chars_bounded (k : nat) :
  forall s acc count r,
    (String.length s <= k)%nat ->
    PyInt.digits acc count s = Some r -> all_chars port_char s = true.
Proof.
  induction k as [|k IH]; intros s acc count r Hlen H.
  - destruct s; [reflexivity | cbn in Hlen; lia].
  - destruct s as [|c s]; [reflexivity|].
    cbn [PyInt.digits] in H. cbn [all_chars]. unfold port_char at 1.
    cbn [String.length] in Hlen.
    destruct (PyInt.is_digit c) eqn:Hd.
    + cbn [orb andb]. apply (IH s) in H; [exact H | lia].
    + destruct (Ascii.eqb c "_") eqn:Hu; [|discriminate]. cbn [orb andb].
      destruct s as [|d s]; [discriminate|].
      destruct (PyInt.is_digit d) eqn:Hd'; [|discriminate].
      cbn [all_chars]. unfold port_char at 1. rewrite Hd'. cbn [orb andb].
      cbn [String.length] in Hlen.
      apply (IH s) in H; [exact H | lia].
Qed.

Lemma digits_chars (s : string) (acc count : Z) (r : Z * Z) :
  PyInt.digits acc count s = Some r -> all_chars port_char s = true.
Proof. now apply (digits_chars_bounded (String.length s)). Qed.

Lemma unsigned_chars (s : string) (n : Z) :
  PyInt.unsigned s = Ok n -> all_chars port_char s = true.
Proof.
  unfold PyInt.unsigned. destruct s as [|c s]; [discriminate|].
  destruct (PyInt.is_digit c) eqn:Hd; [|discriminate].
  destruct (PyInt.digits _ _ _) as [r|] eqn:E; [|discriminate].
  intros _. cbn [all_chars]. unfold port_char at 1. rewrite Hd.
  cbn [orb andb]. exact (digits_chars _ _ _ _ E).
Qed.

(** What [int] accepts is made of digits, underscores, signs and white
    space. *)
Lemma int_chars (s : string) (n : Z) :
  PyInt.int s = Ok n -> all_chars port_char s = true.
Proof.
  intros H. apply all_chars_strip.
  { intros c Hc. unfold port_char. rewrite Hc. now rewrite !orb_true_r. }
  unfold PyInt.int in H. destruct (PyInt.strip s) as [|c s']; [discriminate|].
  destruct (Ascii.eqb c "+") eqn:Hplus.
  - cbn [all_chars]. unfold port_char at 1. rewrite Hplus.
    rewrite !orb_true_r. cbn [orb andb]. exact (unsigned_chars _ _ H).
  - destruct (Ascii.eqb c "-") eqn:Hminus.
    + cbn [all_chars]. unfold port_char at 1. rewrite Hminus.
      rewrite !orb_true_r. cbn [orb andb].
      destruct (PyInt.unsigned s') as [m|] eqn:E; [|discriminate].
      exact (unsigned_chars _ _ E).
    + exact (unsigned_chars _ _ H).
Qed.

(** X13.  A port argument that has any character other than a decimal
    digit, an underscore, a plus or minus sign and white space (a
    decimal point, a letter, a slash) is never taken for a number: the
    script crashes with ValueError and exit status 1 before it has done
    anything. *)
Theorem foreign_character_is_fatal :
  forall (prog s : string) (rest : list string) (can_bind : Z -> bool),
    all_chars port_char s = false ->
    parse_port (prog :: s :: rest) = Raise ValueError
    /\ main (prog :: s :: rest) can_bind = ([], Crashed ValueError)
    /\ exit_status (snd (main (prog :: s :: rest) can_bind)) = Some 1.
Proof.
  intros prog s rest can_bind Hbad.
  assert (E : parse_port (prog :: s :: rest) = Raise ValueError).
  { rewrite parse_port_argument. destruct (PyInt.int s) as [n|e] eqn:Hi.
    - rewrite (int_chars _ _ Hi) in Hbad. discriminate.
    - now rewrite (int_raises _ _ Hi). }
  split; [exact E|]. unfold main. rewrite E. split; reflexivity.
Qed.

Lemma foreign_character_is_fatal_witness :
  all_chars port_char "0x1F90" = false
  /\ main ["cors_server.py"; "0x1F90"] (fun _ => true) = ([], Crashed ValueError).
Proof.
  split; [reflexivity|].
  exact (proj1 (proj2 (foreign_character_is_fatal "cors_server.py" "0x1F90" []
                         (fun _ => true) eq_refl))).
Defined.

Lemma rev_involutive (s : string) : PyInt.rev (PyInt.rev s) = s.
Proof.
  induction s as [|c s IH]; [reflexivity|].
  change (String c s) with (String c EmptyString ++ s) at 1.
  rewrite rev_app, rev_app, IH. reflexivity.
Qed.

Lemma digit_is_no_space (c : ascii) :
  PyInt.is_digit c = true -> PyInt.is_space c = false.
Proof.
  unfold PyInt.is_digit, PyInt.is_space. cbv zeta. intros H.
  apply andb_true_iff in H as [H1 H2].
  apply Z.leb_le in H1, H2.
  destruct (Z.leb_spec 9 (PyText.code c)), (Z.leb_spec (PyText.code c) 13),
    (Z.eqb_spec (PyText.code c) 32), (Z.eqb_spec (PyText.code c) 133),
    (Z.eqb_spec (PyText.code c) 160); cbn; try reflexivity; lia.
Qed.

Lemma digit_is_no_sign (c : ascii) :
  PyInt.is_digit c = true -> Ascii.eqb c "+" = false /\ Ascii.eqb c "-" = false.
Proof.
  intros H. split.
  - destruct (Ascii.eqb_spec c "+"); [subst; discriminate H | reflexivity].
  - destruct (Ascii.eqb_spec c "-"); [subst; discriminate H | reflexivity].
Qed.

Lemma lstrip_digits (s : string) :
  all_chars PyInt.is_digit s = true -> PyInt.lstrip s = s.
Proof.
  destruct s as [|c s]; [reflexivity|]. cbn [all_chars PyInt.lstrip].
  intros H. apply andb_true_iff in H as [Hc _].
  now rewrite (digit_is_no_space c Hc).
Qed.

Lemma strip_digits (s : string) :
  all_chars PyInt.is_digit s = true -> PyInt.strip s = s.
Proof.
  intros H. unfold PyInt.strip. rewrite (lstrip_digits s H).
  rewrite lstrip_digits by (now rewrite all_chars_rev).
  apply rev_involutive.
Qed.

Lemma digits_of_digits (s : string) :
  forall acc count,
    all_chars PyInt.is_digit s = true -> 0 <= acc ->
    exists n,
      PyInt.digits acc count s = Some (n, count + Z.of_nat (String.length s))
      /\ 0 <= n.
Proof.
  induction s as [|c s IH]; intros acc count H Hacc.
  - exists acc. cbn. now rewrite Z.add_0_r.
  - cbn [all_chars] in H. apply andb_true_iff in H as [Hc Hs].
    cbn [PyInt.digits]. rewrite Hc.
    assert (Hv : 0 <= PyInt.digit_value c).
    { unfold PyInt.digit_value, PyInt.is_digit in *.
      apply andb_true_iff in Hc as [Hc _]. apply Z.leb_le in Hc. lia. }
    destruct (IH (10 * acc + PyInt.digit_value c) (count + 1) Hs)
      as (n & E & Hn); [lia|].
    exists n. rewrite E. split; [|exact Hn].
    do 2 f_equal. cbn [String.length]. lia.
Qed.

(** X14.  A port argument of decimal digits only, from one to 4300 of
    them, is always taken: the port is parsed, it is not negative, and
    it is the port of the one [bind] the script makes. *)
Theorem digits_are_accepted :
  forall (prog s : string) (rest : list string) (can_bind : Z -> bool),
    s <> EmptyString ->
    all_chars PyInt.is_digit s = true ->
    (String.length s <= 4300)%nat ->
    exists n,
      parse_port (prog :: s :: rest) = Ok n
      /\ 0 <= n
      /\ bound_ports (fst (main (prog :: s :: rest) can_bind)) = [n].
Proof.
  intros prog s rest can_bind Hne Hd Hlen.
  assert (E : exists n, parse_port (prog :: s :: rest) = Ok n /\ 0 <= n).
  { rewrite parse_port_argument. unfold PyInt.int.
    rewrite (strip_digits s Hd). destruct s as [|c s]; [congruence|].
    cbn [all_chars] in Hd. apply andb_true_iff in Hd as [Hc Hs].
    destruct (digit_is_no_sign c Hc) as [-> ->].
    unfold PyInt.unsigned. rewrite Hc.
    assert (Hv : 0 <= PyInt.digit_value c).
    { unfold PyInt.digit_value, PyInt.is_digit in *.
      apply andb_true_iff in Hc as [Hc _]. apply Z.leb_le in Hc. lia. }
    destruct (digits_of_digits s (PyInt.digit_value c) 1 Hs Hv) as (n & E & Hn).
    rewrite E. exists n. split; [|exact Hn].
    destruct (Z.ltb_spec PyInt.max_str_digits (1 + Z.of_nat (String.length s)));
      [|reflexivity].
    unfold PyInt.max_str_digits in *. cbn [String.length] in Hlen. lia. }
  destruct E as (n & E & Hn). exists n. split; [exact E|]. split; [exact Hn|].
  apply main_binds_parsed_port, E.
Qed.

Lemma digits_are_accepted_witness :
  "0443" <> EmptyString
  /\ all_chars PyInt.is_digit "0443" = true
  /\ (String.length "0443" <= 4300)%nat
  /\ exists n,
       parse_port ["cors_server.py"; "0443"] = Ok n
       /\ 0 <= n
       /\ bound_ports (fst (main ["cors_server.py"; "0443"] (fun _ => true))) = [n].
Proof.
  assert (H1 : "0443" <> EmptyString) by discriminate.
  assert (H3 : (String.length "0443" <= 4300)%nat) by (cbn; lia).
  split; [exact H1|]. split; [reflexivity|]. split; [exact H3|].
  exact (digits_are_accepted "cors_server.py" "0443" [] (fun _ => true)
           H1 eq_refl H3).
Defined.
